(** * DCF valuation engine of [src/tools/valuation_analysis.py]

    A shallow embedding of [_calculate_dcf_value] and the properties of
    the discounted-cash-flow computation it performs.

    Numbers.  The function is annotated [List[float]] / [float] / [int].
    Python floats are idealised as real numbers: [+], [-], [*] are exact,
    [x / y] raises [ZeroDivisionError] when [y] is zero (as Python's float
    division does) and is the exact quotient otherwise; rounding, overflow
    and NaN are outside the model, and so is the arithmetic of
    [numpy.float64] scalars, where a zero divisor gives an infinity and a
    warning instead of an exception.  [forecast_years] is a Python [int],
    modelled as [Z].

    Control.  The function either returns a dictionary (an error
    dictionary [{"error": msg}] or the valuation dictionary) or is left by
    an exception ([IndexError], [ZeroDivisionError]); the small monad [py]
    below keeps the two apart. *)

From Stdlib Require Import String Reals Lra Lia ZArith List.
From Stdlib Require Import Sorted.
Import ListNotations.

Local Open Scope R_scope.

(** ** Python outcomes *)

Inductive exn : Type :=
| IndexError
| ZeroDivisionError.

Inductive py (A : Type) : Type :=
| Return (a : A)
| Raise (e : exn).

Arguments Return {A} a.
Arguments Raise {A} e.

Definition bind {A B : Type} (m : py A) (k : A -> py B) : py B :=
  match m with
  | Return a => k a
  | Raise e => Raise e
  end.

Declare Scope py_scope.
Delimit Scope py_scope with py.
Notation "x <- m ;; k" := (bind m (fun x => k))
  (at level 61, m at next level, right associativity) : py_scope.
Local Open Scope py_scope.

(** ** The Python primitives the function uses *)

Module Py.

(** [x / y] on Python floats (and [int / int] true division): a zero
    divisor raises.  With a [numpy.float64] dividend, as the cash flows
    that [calculate_dcf_valuation] collects, the same [/] gives an
    infinity and a warning; that case is outside the model. *)
Definition truediv (x y : R) : py R :=
  if Req_dec_T y 0 then Raise ZeroDivisionError else Return (x / y).

(** [x ** k] for a float [x] and an [int] [k], as an exact power: the
    [OverflowError] of a result beyond the float range and the underflow
    of a tiny one to [0.0] are outside the model. *)
Definition pow_int (x : R) (k : Z) : R := powerRZ x k.

(** [x ** y] for floats with [x > 0], the only case the function
    reaches (the base is a quotient of two positive cash flows). *)
Definition pow (x y : R) : R := Rpower x y.

(** [min(a, b)]: the first argument unless the second is smaller. *)
Definition min (a b : R) : R := if Rlt_dec b a then b else a.

(** [sum(l)]: left-to-right accumulation starting from [0]. *)
Definition sum (l : list R) : R := fold_left Rplus l 0.

(** [range(lo, hi)]. *)
Definition range (lo hi : Z) : list Z :=
  map (fun i => (lo + Z.of_nat i)%Z) (seq 0 (Z.to_nat (hi - lo))).

(** [enumerate(l, start)]. *)
Fixpoint enumerate {A : Type} (l : list A) (start : Z) : list (Z * A) :=
  match l with
  | [] => []
  | x :: l' => (start, x) :: enumerate l' (start + 1)
  end.

(** [l[0]]. *)
Definition first {A : Type} (l : list A) : py A :=
  match l with
  | [] => Raise IndexError
  | x :: _ => Return x
  end.

(** [l[-1]]. *)
Fixpoint last {A : Type} (l : list A) : py A :=
  match l with
  | [] => Raise IndexError
  | [x] => Return x
  | _ :: l' => last l'
  end.

(** A [for] loop whose body may raise: the state [s] is threaded
    through the items in order and the first exception ends the loop. *)
Fixpoint for_each {A S : Type} (items : list A) (s : S)
         (body : S -> A -> py S) : py S :=
  match items with
  | [] => Return s
  | x :: items' => s' <- body s x ;; for_each items' s' body
  end.

End Py.

(** ** The result dictionary *)

Record DCFResult : Type := mkDCFResult {
  enterprise_value : R;
  pv_cash_flows : R;
  pv_terminal_value : R;
  terminal_value : R;
  forecast_growth_rate : R;
  historical_growth : R;
  projected_cash_flows : list R
}.

Inductive dcf_dict : Type :=
| ErrorDict (msg : string)
| ValuationDict (res : DCFResult).

(** [cf > 0], the test of the list comprehension. *)
Definition is_positive (cf : R) : bool :=
  if Rlt_dec 0 cf then true else false.

(** ** [_calculate_dcf_value] *)

Definition _calculate_dcf_value (cash_flows : list R)
           (terminal_growth_rate discount_rate : R) (forecast_years : Z)
  : py dcf_dict :=
  if (length cash_flows <? 2)%nat then
    Return (ErrorDict "Insufficient cash flow data for DCF calculation"%string)
  else
    let cash_flows := filter is_positive cash_flows in
    if (length cash_flows <? 2)%nat then
      Return (ErrorDict "Insufficient positive cash flow data"%string)
    else
      cf_last <- Py.last cash_flows ;;
      cf_first <- Py.first cash_flows ;;
      ratio <- Py.truediv cf_last cf_first ;;
      exponent <- Py.truediv 1 (INR (length cash_flows - 1)) ;;
      let historical_growth := Py.pow ratio exponent - 1 in
      let forecast_growth_rate := Py.min historical_growth 0.15 in
      last_cf <- Py.last cash_flows ;;
      let projected_cash_flows :=
        fold_left
          (fun projected year =>
             let next_cf :=
               last_cf * Py.pow_int (1 + forecast_growth_rate) year in
             projected ++ [next_cf])
          (Py.range 1 (forecast_years + 1)) [] in
      projected_last <- Py.last projected_cash_flows ;;
      let terminal_cf := projected_last * (1 + terminal_growth_rate) in
      terminal_value <-
        Py.truediv terminal_cf (discount_rate - terminal_growth_rate) ;;
      pv_cash_flows <-
        Py.for_each (Py.enumerate projected_cash_flows 1) []
          (fun pvs '(i, cf) =>
             pv <- Py.truediv cf (Py.pow_int (1 + discount_rate) i) ;;
             Return (pvs ++ [pv])) ;;
      pv_terminal <-
        Py.truediv terminal_value
                   (Py.pow_int (1 + discount_rate) forecast_years) ;;
      let enterprise_value := Py.sum pv_cash_flows + pv_terminal in
      Return (ValuationDict
                {| enterprise_value := enterprise_value;
                   pv_cash_flows := Py.sum pv_cash_flows;
                   pv_terminal_value := pv_terminal;
                   terminal_value := terminal_value;
                   forecast_growth_rate := forecast_growth_rate;
                   historical_growth := historical_growth;
                   projected_cash_flows := projected_cash_flows |}).

(** * Auxiliary definitions *)

(** [Sigma n F] is [F 1 + ... + F n]. *)
Fixpoint Sigma (n : nat) (F : nat -> R) : R :=
  match n with
  | O => 0
  | S m => Sigma m F + F n
  end.

(** ** The computation in closed form

    [cf] is the list of retained (strictly positive) cash flows and [n]
    the forecast horizon. *)

Definition cagr (cf : list R) : R :=
  Rpower (last cf 0 / hd 0 cf) (1 / INR (length cf - 1)) - 1.

Definition growth (cf : list R) : R := Py.min (cagr cf) 0.15.

Definition projected (cf : list R) (k : nat) : R :=
  last cf 0 * (1 + growth cf) ^ k.

Definition perpetuity (cf : list R) (g r : R) (n : nat) : R :=
  projected cf n * (1 + g) / (r - g).

Definition valuation (cf : list R) (g r : R) (n : nat) : DCFResult :=
  let pv := Sigma n (fun k => projected cf k / (1 + r) ^ k) in
  let pv_terminal := perpetuity cf g r n / (1 + r) ^ n in
  {| enterprise_value := pv + pv_terminal;
     pv_cash_flows := pv;
     pv_terminal_value := pv_terminal;
     terminal_value := perpetuity cf g r n;
     forecast_growth_rate := growth cf;
     historical_growth := cagr cf;
     projected_cash_flows := map (projected cf) (seq 1 n) |}.

(** The part of the function after the growth estimate, on the retained
    cash flows. *)
Definition discount_projection (cf : list R) (g r : R) (N : Z)
  : py dcf_dict :=
  let projected_cash_flows :=
    map (fun year => last cf 0 * Py.pow_int (1 + growth cf) year)
        (Py.range 1 (N + 1)) in
  projected_last <- Py.last projected_cash_flows ;;
  terminal_value <- Py.truediv (projected_last * (1 + g)) (r - g) ;;
  pv_cash_flows <-
    Py.for_each (Py.enumerate projected_cash_flows 1) []
      (fun pvs '(i, cf) =>
         pv <- Py.truediv cf (Py.pow_int (1 + r) i) ;;
         Return (pvs ++ [pv])) ;;
  pv_terminal <- Py.truediv terminal_value (Py.pow_int (1 + r) N) ;;
  Return (ValuationDict
            {| enterprise_value := Py.sum pv_cash_flows + pv_terminal;
               pv_cash_flows := Py.sum pv_cash_flows;
               pv_terminal_value := pv_terminal;
               terminal_value := terminal_value;
               forecast_growth_rate := growth cf;
               historical_growth := cagr cf;
               projected_cash_flows := projected_cash_flows |}).

(** ** Outcomes named by the properties *)

(** The spec's [InsufficientDataError]: one of the two error
    dictionaries the function returns before any arithmetic. *)
Definition InsufficientDataError (out : py dcf_dict) : Prop :=
  out = Return (ErrorDict "Insufficient cash flow data for DCF calculation")
  \/ out = Return (ErrorDict "Insufficient positive cash flow data").

Definition returns_valuation (out : py dcf_dict) : Prop :=
  exists res, out = Return (ValuationDict res).

(** ** Changing the currency unit

    [scale_result c res] is the valuation [res] with every amount
    multiplied by [c]; the two growth rates are left alone. *)



(** * Computations inside the tools

    [register_valuation_analysis_tools] defines four tools.  Each fetches
    data frames from the data source, computes on them and formats a
    report.  The computations are modelled below, tool by tool; fetching is
    a parameter and formatting is left out.

    A cell of a data frame is represented by what
    [pd.to_numeric(cell, errors='coerce')] makes of it, which is how every
    modelled computation reads it: a number, or NaN ([None]). *)

Module Pd.

Record frame : Type := mkFrame {
  columns : list string;
  rows : list (string -> option R)
}.

(** [df.empty]: no column or no row. *)
Definition empty (df : frame) : bool :=
  match columns df, rows df with
  | [], _ => true
  | _, [] => true
  | _, _ => false
  end.

(** [col in df.columns]. *)
Definition has_column (col : string) (df : frame) : bool :=
  existsb (String.eqb col) (columns df).

(** [df[col].iloc[0]] for a column of [df]. *)
Definition iloc0 (df : frame) (col : string) : py (option R) :=
  match rows df with
  | [] => Raise IndexError
  | row :: _ => Return (row col)
  end.

(** [series.dropna()]. *)
Fixpoint dropna (series : list (option R)) : list R :=
  match series with
  | [] => []
  | Some x :: rest => x :: dropna rest
  | None :: rest => dropna rest
  end.

(** [x <= y] on numbers. *)
Definition le (x y : R) : bool := if Rle_dec x y then true else false.

(** [(series <= x).mean()]: the share of entries that are at most [x];
    a NaN entry compares false and still counts in the denominator. *)
Definition share_le (series : list (option R)) (x : R) : R :=
  let hit cell := match cell with Some v => le v x | None => false end in
  INR (length (filter hit series)) / INR (length series).

(** [series.mean()], [series.min()], [series.max()] on a series without
    NaN. *)
Definition mean (values : list R) : R :=
  Py.sum values / INR (length values).

Definition min (values : list R) : R :=
  fold_left Rmin (tl values) (hd 0 values).

Definition max (values : list R) : R :=
  fold_left Rmax (tl values) (hd 0 values).

End Pd.

(** ** [get_valuation_metrics]: the trend of one metric *)

Record trend : Type := mkTrend {
  current_val : R;
  avg_val : R;
  min_val : R;
  max_val : R;
  deviation : R;
  percentile : R
}.

(** The body of the loop over the metrics, for one column of the frame;
    [None] when the column has no valid value and nothing is reported. *)
Definition metric_trend (column : list (option R)) : option trend :=
  let values := Pd.dropna column in
  if (0 <? length values)%nat then
    let current_val := last values 0 in
    let avg_val := Pd.mean values in
    let min_val := Pd.min values in
    let max_val := Pd.max values in
    let deviation :=
      if Req_dec_T avg_val 0 then 0 else (current_val / avg_val - 1) * 100 in
    let percentile := Pd.share_le (map Some values) current_val * 100 in
    Some {| current_val := current_val;
            avg_val := avg_val;
            min_val := min_val;
            max_val := max_val;
            deviation := deviation;
            percentile := percentile |}
  else None.

(** ** [calculate_peg_ratio] *)

Definition growth_columns : list string :=
  ["YOYNI"; "YOYProfit"; "YOYEPSBasic"]%string.

(** The loop over the growth columns: the first column of [growth_data]
    whose first cell is a number other than 0 gives [growth_rate] and
    [growth_field]. *)
Fixpoint probe_growth_rate (cols : list string) (growth_data : Pd.frame)
  : py (option (R * string)) :=
  match cols with
  | [] => Return None
  | col :: rest =>
      if Pd.has_column col growth_data then
        cell <- Pd.iloc0 growth_data col ;;
        match cell with
        | Some rate =>
            if Req_dec_T rate 0 then probe_growth_rate rest growth_data
            else Return (Some (rate, col))
        | None => probe_growth_rate rest growth_data
        end
      else probe_growth_rate rest growth_data
  end.

(** A float that may be [float('inf')]. *)
Inductive peg_value : Type :=
| Finite (x : R)
| Infinity.

Definition peg_ratio (latest_pe growth_rate : R) : peg_value :=
  if Req_dec_T growth_rate 0 then Infinity
  else Finite (latest_pe / growth_rate).

(** [peg < x] and [peg <= x]. *)
Definition peg_lt (peg : peg_value) (x : R) : bool :=
  match peg with
  | Finite v => if Rlt_dec v x then true else false
  | Infinity => false
  end.

Definition peg_le (peg : peg_value) (x : R) : bool :=
  match peg with
  | Finite v => if Rle_dec v x then true else false
  | Infinity => false
  end.

(** The six readings of the report, in the order of the [if] chain:
    negative growth, PEG < 0.5, 0.5 <= PEG <= 1.0, 1.0 < PEG <= 1.5,
    1.5 < PEG <= 2.0, PEG > 2.0. *)
Inductive peg_reading : Type :=
| NegativeGrowth
| Undervalued
| Reasonable
| Elevated
| Overvalued
| SeverelyOvervalued.

Definition interpret_peg (peg : peg_value) : peg_reading :=
  if peg_lt peg 0 then NegativeGrowth
  else if peg_lt peg 0.5 then Undervalued
  else if peg_le peg 1.0 then Reasonable
  else if peg_le peg 1.5 then Elevated
  else if peg_le peg 2.0 then Overvalued
  else SeverelyOvervalued.

(** ** [calculate_dcf_valuation] *)

Definition cf_fields : list string :=
  ["manageCashFlow"; "operatingCashFlow"; "NCFFromOA"]%string.

(** The loop over the cash-flow fields: the first field of [cf_data]
    whose first cell is a number gives [annual_cf]. *)
Fixpoint probe_cash_flow (fields : list string) (cf_data : Pd.frame)
  : py (option R) :=
  match fields with
  | [] => Return None
  | field :: rest =>
      if Pd.has_column field cf_data then
        cell <- Pd.iloc0 cf_data field ;;
        match cell with
        | Some cf_value => Return (Some cf_value)
        | None => probe_cash_flow rest cf_data
        end
      else probe_cash_flow rest cf_data
  end.

(** One round of the loop over the past years.  [get_cash_flow_data year]
    is the data source's answer for quarter 4 of [year], [None] when the
    call raises; the bare [except] then skips the year. *)
Definition collect_year (get_cash_flow_data : Z -> option Pd.frame)
           (current_year : Z) (acc : list R * list (Z * R)) (i : Z)
  : list R * list (Z * R) :=
  let '(cash_flows, years_data) := acc in
  let year := (current_year - i - 1)%Z in
  match get_cash_flow_data year with
  | None => acc
  | Some cf_data =>
      if negb (Pd.empty cf_data) then
        match probe_cash_flow cf_fields cf_data with
        | Return (Some annual_cf) =>
            (cash_flows ++ [annual_cf], years_data ++ [(year, annual_cf)])
        | Return None => acc
        | Raise _ => acc
        end
      else acc
  end.

Definition collect_cash_flows (get_cash_flow_data : Z -> option Pd.frame)
           (current_year years_back : Z) : list R * list (Z * R) :=
  fold_left (collect_year get_cash_flow_data current_year)
            (Py.range 0 years_back) ([], []).

(** How the tool goes on after the collection: it returns the error
    string about too few years, or reverses both lists and calls the
    engine with the default horizon. *)
Inductive dcf_tool_step : Type :=
| TooFewYears
| EngineCalled (cash_flows : list R) (years_data : list (Z * R))
               (dcf_result : py dcf_dict).

Definition dcf_tool_valuation (get_cash_flow_data : Z -> option Pd.frame)
           (current_year years_back : Z)
           (discount_rate terminal_growth_rate : R) : dcf_tool_step :=
  let '(cash_flows, years_data) :=
    collect_cash_flows get_cash_flow_data current_year years_back in
  if (length cash_flows <? 2)%nat then TooFewYears
  else
    let cash_flows := rev cash_flows in
    let years_data := rev years_data in
    EngineCalled cash_flows years_data
                 (_calculate_dcf_value cash_flows terminal_growth_rate
                                       discount_rate 5).

(** ** [compare_industry_valuation] *)

Inductive level : Type :=
| ClearlyUndervalued
| SlightlyUndervalued
| FairlyValued
| SlightlyOvervalued
| ClearlyOvervalued.

(** The string assigned to [level]. *)
Definition level_text (l : level) : string :=
  match l with
  | ClearlyUndervalued => "明显低估"
  | SlightlyUndervalued => "轻微低估"
  | FairlyValued => "估值合理"
  | SlightlyOvervalued => "轻微高估"
  | ClearlyOvervalued => "明显高估"
  end.

Definition valuation_level (target_value mean_value : R) : level :=
  if Rlt_dec target_value (mean_value * 0.8) then ClearlyUndervalued
  else if Rlt_dec target_value (mean_value * 0.95) then SlightlyUndervalued
  else if Rle_dec target_value (mean_value * 1.05) then FairlyValued
  else if Rle_dec target_value (mean_value * 1.2) then SlightlyOvervalued
  else ClearlyOvervalued.


(** The five levels from the cheapest to the dearest. *)
Definition level_rank (l : level) : nat :=
  match l with
  | ClearlyUndervalued => 0
  | SlightlyUndervalued => 1
  | FairlyValued => 2
  | SlightlyOvervalued => 3
  | ClearlyOvervalued => 4
  end.

(** ** Sample frames *)

(** A growth frame whose YOYNI cell is 0 and whose YOYProfit cell is
    12.5. *)
Definition sample_growth_data : Pd.frame :=
  {| Pd.columns := ["YOYNI"; "YOYProfit"]%string;
     Pd.rows := [fun col => if (col =? "YOYNI")%string then Some 0
                            else Some 12.5] |}.

(** ** What a past year contributes

    [year_contribution] is the pair appended to [years_data] in round [i]
    of the collection loop, if any; [contributions] lists them over the
    rounds. *)

Definition year_contribution (get_cash_flow_data : Z -> option Pd.frame)
           (current_year i : Z) : option (Z * R) :=
  let year := (current_year - i - 1)%Z in
  match get_cash_flow_data year with
  | None => None
  | Some cf_data =>
      if negb (Pd.empty cf_data) then
        match probe_cash_flow cf_fields cf_data with
        | Return (Some annual_cf) => Some (year, annual_cf)
        | Return None => None
        | Raise _ => None
        end
      else None
  end.

Definition contributions (get_cash_flow_data : Z -> option Pd.frame)
           (current_year : Z) (rounds : list Z) : list (Z * R) :=
  flat_map (fun i =>
              match year_contribution get_cash_flow_data current_year i with
              | Some pick => [pick]
              | None => []
              end) rounds.

(** A data source with the operating cash flows 80, 0 and 120 for the
    years 2021 to 2023, an empty frame for 2020 and a failure for every
    other year; the 2022 frame has NaN in its first field. *)
Definition sample_cash_flow_data (year : Z) : option Pd.frame :=
  if (year =? 2023)%Z then
    Some {| Pd.columns := ["NCFFromOA"]%string;
            Pd.rows := [fun _ => Some 120] |}
  else if (year =? 2022)%Z then
    Some {| Pd.columns := ["manageCashFlow"; "NCFFromOA"]%string;
            Pd.rows := [fun col => if (col =? "NCFFromOA")%string
                                   then Some 0 else None] |}
  else if (year =? 2021)%Z then
    Some {| Pd.columns := ["manageCashFlow"]%string;
            Pd.rows := [fun _ => Some 80] |}
  else if (year =? 2020)%Z then
    Some {| Pd.columns := ["manageCashFlow"]%string; Pd.rows := [] |}
  else None.

(** * Properties *)

(** Deciding the comparison of the list comprehension on numerals. *)
Ltac retain :=
  unfold filter, is_positive;
  repeat match goal with
         | |- context [Rlt_dec ?a ?b] => destruct (Rlt_dec a b); try lra
         end;
  try reflexivity.

(** ** Outcomes and the primitives *)

Lemma bind_Return {A B : Type} (a : A) (k : A -> py B) :
  bind (Return a) k = k a.
Proof. reflexivity. Qed.

Lemma truediv_nonzero (x y : R) :
  y <> 0 -> Py.truediv x y = Return (x / y).
Proof.
  intros Hy. unfold Py.truediv.
  destruct (Req_dec_T y 0) as [E | _]; [contradiction | reflexivity].
Qed.

Lemma truediv_zero (x : R) : Py.truediv x 0 = Raise ZeroDivisionError.
Proof.
  unfold Py.truediv.
  destruct (Req_dec_T 0 0) as [_ | N]; [reflexivity | now elim N].
Qed.

Lemma min_is_Rmin (a b : R) : Py.min a b = Rmin a b.
Proof.
  unfold Py.min, Rmin.
  destruct (Rlt_dec b a) as [Hlt | Hge], (Rle_dec a b) as [Hle | Hnle];
    try reflexivity; lra.
Qed.

Lemma pow_int_of_nat (x : R) (n : nat) : Py.pow_int x (Z.of_nat n) = x ^ n.
Proof. unfold Py.pow_int. symmetry. apply pow_powerRZ. Qed.

(** [range(1, n + 1)] counts [1, ..., n]; it is empty for [n <= 0]. *)
Lemma range_from_1 (n : nat) :
  Py.range 1 (Z.of_nat n + 1) = map Z.of_nat (seq 1 n).
Proof.
  unfold Py.range.
  replace (Z.to_nat (Z.of_nat n + 1 - 1)) with n by lia.
  rewrite <- seq_shift, map_map.
  apply map_ext. intros i. lia.
Qed.

Lemma range_empty (N : Z) : (N <= 0)%Z -> Py.range 1 (N + 1) = [].
Proof.
  intros HN. unfold Py.range.
  replace (Z.to_nat (N + 1 - 1)) with 0%nat by lia.
  reflexivity.
Qed.

Lemma enumerate_map_seq {A B : Type} (f : nat -> A) (F : Z -> A -> B)
      (lo n : nat) :
  map (fun p => F (fst p) (snd p))
      (Py.enumerate (map f (seq lo n)) (Z.of_nat lo))
  = map (fun k => F (Z.of_nat k) (f k)) (seq lo n).
Proof.
  revert lo. induction n as [| n IH]; intros lo; simpl; [reflexivity |].
  f_equal.
  replace (Z.of_nat lo + 1)%Z with (Z.of_nat (S lo)) by lia.
  apply IH.
Qed.

Lemma last_snoc {A : Type} (l : list A) (x : A) :
  Py.last (l ++ [x]) = Return x.
Proof.
  induction l as [| y l IH]; simpl; [reflexivity |].
  destruct (l ++ [x]) eqn:E; [| exact IH].
  destruct l; discriminate.
Qed.

Lemma last_nonempty {A : Type} (l : list A) (d : A) :
  l <> [] -> Py.last l = Return (List.last l d).
Proof.
  intros Hl. destruct (exists_last Hl) as (l' & x & ->).
  now rewrite last_snoc, last_last.
Qed.

Lemma first_nonempty {A : Type} (l : list A) (d : A) :
  l <> [] -> Py.first l = Return (hd d l).
Proof. destruct l; [congruence | reflexivity]. Qed.

(** A loop that only appends computes a [map]. *)
Lemma append_loop {A B : Type} (f : A -> B) (items : list A) (acc : list B) :
  fold_left (fun out x => out ++ [f x]) items acc = acc ++ map f items.
Proof.
  revert acc. induction items as [| x items IH]; intros acc; simpl.
  - now rewrite app_nil_r.
  - now rewrite IH, <- app_assoc.
Qed.

(** The discounting loop: with every divisor non-zero it appends the
    quotients; the first zero divisor raises. *)
Lemma discount_loop (d : Z -> R) (items : list (Z * R)) (acc : list R) :
  (forall p, In p items -> d (fst p) <> 0) ->
  Py.for_each items acc
    (fun pvs '(i, cf) => pv <- Py.truediv cf (d i) ;; Return (pvs ++ [pv]))
  = Return (acc ++ map (fun p => snd p / d (fst p)) items).
Proof.
  revert acc. induction items as [| [i cf] items IH]; intros acc Hd; simpl.
  - now rewrite app_nil_r.
  - rewrite truediv_nonzero by (apply (Hd (i, cf)); now left).
    simpl. rewrite IH by (intros p Hp; apply Hd; now right).
    now rewrite <- app_assoc.
Qed.

Lemma discount_loop_raises (d : Z -> R) (i : Z) (cf : R)
      (items : list (Z * R)) (acc : list R) :
  d i = 0 ->
  Py.for_each ((i, cf) :: items) acc
    (fun pvs '(i, cf) => pv <- Py.truediv cf (d i) ;; Return (pvs ++ [pv]))
  = Raise ZeroDivisionError.
Proof. intros Hd. simpl. now rewrite Hd, truediv_zero. Qed.

(** ** Sums *)

Lemma sum_snoc (l : list R) (x : R) : Py.sum (l ++ [x]) = Py.sum l + x.
Proof. unfold Py.sum. now rewrite fold_left_app. Qed.

Lemma sum_map_seq (F : nat -> R) (n : nat) :
  Py.sum (map F (seq 1 n)) = Sigma n F.
Proof.
  induction n as [| n IH]; [reflexivity |].
  rewrite seq_S, map_app. cbn [map].
  rewrite sum_snoc, IH. reflexivity.
Qed.

Lemma Sigma_ext (n : nat) (F G : nat -> R) :
  (forall k, (1 <= k <= n)%nat -> F k = G k) -> Sigma n F = Sigma n G.
Proof.
  induction n as [| n IH]; intros H; simpl; [reflexivity |].
  rewrite IH by (intros k Hk; apply H; lia).
  now rewrite (H (S n)) by lia.
Qed.

Lemma Sigma_le (n : nat) (F G : nat -> R) :
  (forall k, (1 <= k <= n)%nat -> F k <= G k) -> Sigma n F <= Sigma n G.
Proof.
  induction n as [| n IH]; intros H; simpl; [lra |].
  apply Rplus_le_compat; [apply IH; intros k Hk; apply H; lia |].
  apply H; lia.
Qed.

(** ** The retained cash flows *)

Lemma is_positive_true (x : R) : is_positive x = true <-> 0 < x.
Proof.
  unfold is_positive. destruct (Rlt_dec 0 x); split; intros; try easy.
Qed.

Lemma retained_positive (cash_flows : list R) :
  Forall (fun x => 0 < x) (filter is_positive cash_flows).
Proof.
  apply Forall_forall. intros x Hx.
  apply filter_In in Hx. now apply is_positive_true.
Qed.

Lemma filter_all_positive (cf : list R) :
  Forall (fun x => 0 < x) cf -> filter is_positive cf = cf.
Proof.
  induction 1 as [| x cf Hx _ IH]; simpl; [reflexivity |].
  apply is_positive_true in Hx. now rewrite Hx, IH.
Qed.

Lemma retained_idempotent (cash_flows : list R) :
  filter is_positive (filter is_positive cash_flows)
  = filter is_positive cash_flows.
Proof. apply filter_all_positive, retained_positive. Qed.

Lemma retained_length (cash_flows : list R) :
  (length (filter is_positive cash_flows) <= length cash_flows)%nat.
Proof. apply filter_length_le. Qed.

Lemma hd_positive (cf : list R) :
  Forall (fun x => 0 < x) cf -> cf <> [] -> 0 < hd 0 cf.
Proof. intros H Hne. destruct cf; [congruence |]. now inversion H. Qed.

Lemma last_positive (cf : list R) :
  Forall (fun x => 0 < x) cf -> cf <> [] -> 0 < last cf 0.
Proof.
  intros H Hne. destruct (exists_last Hne) as (l & x & ->).
  rewrite last_last. apply Forall_app in H as [_ H]. now inversion H.
Qed.

Lemma two_nonempty {A : Type} (l : list A) : (2 <= length l)%nat -> l <> [].
Proof. destruct l; simpl; [lia | congruence]. Qed.

Lemma dcf_short (cash_flows : list R) (g r : R) (N : Z) :
  (length cash_flows < 2)%nat ->
  _calculate_dcf_value cash_flows g r N
  = Return (ErrorDict "Insufficient cash flow data for DCF calculation").
Proof.
  intros H. unfold _calculate_dcf_value.
  apply Nat.ltb_lt in H. now rewrite H.
Qed.

Lemma dcf_few_positive (cash_flows : list R) (g r : R) (N : Z) :
  (2 <= length cash_flows)%nat ->
  (length (filter is_positive cash_flows) < 2)%nat ->
  _calculate_dcf_value cash_flows g r N
  = Return (ErrorDict "Insufficient positive cash flow data").
Proof.
  intros H2 H. unfold _calculate_dcf_value.
  apply Nat.ltb_ge in H2. apply Nat.ltb_lt in H. now rewrite H2, H.
Qed.

Lemma dcf_enough (cash_flows : list R) (g r : R) (N : Z) :
  (2 <= length (filter is_positive cash_flows))%nat ->
  _calculate_dcf_value cash_flows g r N
  = discount_projection (filter is_positive cash_flows) g r N.
Proof.
  intros H. unfold _calculate_dcf_value.
  pose proof (retained_length cash_flows) as Hle.
  pose proof (retained_positive cash_flows) as Hpos.
  pose proof (two_nonempty _ H) as Hne.
  set (cf := filter is_positive cash_flows) in *.
  replace (length cash_flows <? 2)%nat with false
    by (symmetry; apply Nat.ltb_ge; lia).
  replace (length cf <? 2)%nat with false
    by (symmetry; apply Nat.ltb_ge; lia).
  rewrite (last_nonempty cf 0 Hne), (first_nonempty cf 0 Hne).
  rewrite !bind_Return.
  rewrite truediv_nonzero
    by (pose proof (hd_positive cf Hpos Hne); lra).
  rewrite bind_Return.
  rewrite truediv_nonzero.
  2:{ apply not_0_INR. lia. }
  rewrite !bind_Return.
  rewrite append_loop. reflexivity.
Qed.

(** ** The four ways the second half can end *)

Lemma projection_list (cf : list R) (n : nat) :
  map (fun year => last cf 0 * Py.pow_int (1 + growth cf) year)
      (Py.range 1 (Z.of_nat n + 1))
  = map (projected cf) (seq 1 n).
Proof.
  rewrite range_from_1, map_map. apply map_ext. intros k.
  unfold projected. now rewrite pow_int_of_nat.
Qed.

Lemma projection_last (cf : list R) (n : nat) :
  Py.last (map (projected cf) (seq 1 (S n))) = Return (projected cf (S n)).
Proof. rewrite seq_S, map_app. cbn [map]. apply last_snoc. Qed.

Lemma discount_no_horizon (cf : list R) (g r : R) (N : Z) :
  (N <= 0)%Z -> discount_projection cf g r N = Raise IndexError.
Proof.
  intros HN. unfold discount_projection.
  now rewrite range_empty.
Qed.

Lemma discount_equal_rates (cf : list R) (g r : R) (N : Z) :
  (1 <= N)%Z -> r = g ->
  discount_projection cf g r N = Raise ZeroDivisionError.
Proof.
  intros HN ->. unfold discount_projection.
  replace N with (Z.of_nat (S (Z.to_nat N - 1))) by lia.
  rewrite projection_list, projection_last, bind_Return.
  replace (g - g) with 0 by lra.
  now rewrite truediv_zero.
Qed.

Lemma discount_total_loss (cf : list R) (g r : R) (N : Z) :
  (1 <= N)%Z -> r <> g -> r = -1 ->
  discount_projection cf g r N = Raise ZeroDivisionError.
Proof.
  intros HN Hg ->. unfold discount_projection.
  replace N with (Z.of_nat (S (Z.to_nat N - 1))) by lia.
  rewrite projection_list, projection_last, bind_Return.
  rewrite truediv_nonzero by lra. rewrite bind_Return.
  cbn [seq map Py.enumerate].
  rewrite (discount_loop_raises (fun i => Py.pow_int (1 + -1) i)).
  - reflexivity.
  - unfold Py.pow_int. simpl. lra.
Qed.

Lemma discount_returns (cf : list R) (g r : R) (N : Z) :
  (1 <= N)%Z -> r <> g -> r <> -1 ->
  discount_projection cf g r N
  = Return (ValuationDict (valuation cf g r (Z.to_nat N))).
Proof.
  intros HN Hg Hr. unfold discount_projection.
  assert (Hbase : 1 + r <> 0) by lra.
  destruct (Z.to_nat N) as [| m] eqn:En; [lia |].
  replace N with (Z.of_nat (S m)) by lia.
  rewrite projection_list, projection_last, bind_Return.
  rewrite truediv_nonzero by lra. rewrite bind_Return.
  rewrite (discount_loop (fun i => Py.pow_int (1 + r) i)).
  2:{ intros p _. now apply powerRZ_NOR. }
  rewrite bind_Return, app_nil_l.
  change 1%Z with (Z.of_nat 1).
  rewrite (enumerate_map_seq (projected cf)
             (fun i x => x / Py.pow_int (1 + r) i)).
  rewrite truediv_nonzero by now apply powerRZ_NOR.
  rewrite bind_Return, sum_map_seq, pow_int_of_nat.
  rewrite (Sigma_ext _ _ (fun k => projected cf k / (1 + r) ^ k))
    by (intros k _; now rewrite pow_int_of_nat).
  reflexivity.
Qed.

(** ** Outcome of the whole function *)

Lemma dcf_run (cash_flows : list R) (g r : R) (N : Z) :
  (2 <= length (filter is_positive cash_flows))%nat ->
  (1 <= N)%Z -> r <> g -> r <> -1 ->
  _calculate_dcf_value cash_flows g r N
  = Return (ValuationDict
              (valuation (filter is_positive cash_flows) g r (Z.to_nat N))).
Proof.
  intros H HN Hg Hr. rewrite dcf_enough by assumption.
  now apply discount_returns.
Qed.

(** A valuation is returned only in the case of [dcf_run]. *)
Lemma dcf_inversion (cash_flows : list R) (g r : R) (N : Z)
      (res : DCFResult) :
  _calculate_dcf_value cash_flows g r N = Return (ValuationDict res) ->
  (2 <= length (filter is_positive cash_flows))%nat
  /\ (1 <= N)%Z /\ r <> g /\ r <> -1
  /\ res = valuation (filter is_positive cash_flows) g r (Z.to_nat N).
Proof.
  intros Hrun.
  destruct (Nat.lt_ge_cases (length cash_flows) 2) as [Hshort | Hlen].
  { rewrite dcf_short in Hrun by assumption. discriminate. }
  destruct (Nat.lt_ge_cases (length (filter is_positive cash_flows)) 2)
    as [Hfew | Hpos].
  { rewrite dcf_few_positive in Hrun by assumption. discriminate. }
  rewrite dcf_enough in Hrun by assumption.
  destruct (Z_le_gt_dec N 0) as [HN | HN].
  { rewrite discount_no_horizon in Hrun by assumption. discriminate. }
  destruct (Req_dec_T r g) as [Hg | Hg].
  { rewrite discount_equal_rates in Hrun by (assumption || lia).
    discriminate. }
  destruct (Req_dec_T r (-1)) as [Hr | Hr].
  { rewrite discount_total_loss in Hrun by (assumption || lia).
    discriminate. }
  rewrite discount_returns in Hrun by (assumption || lia).
  repeat split; try assumption; try lia.
  congruence.
Qed.

Lemma insufficient_no_valuation (out : py dcf_dict) :
  InsufficientDataError out -> ~ returns_valuation out.
Proof. intros [-> | ->] [res Hres]; discriminate. Qed.

Lemma dcf_insufficient (cash_flows : list R) (g r : R) (N : Z) :
  (length (filter is_positive cash_flows) < 2)%nat ->
  InsufficientDataError (_calculate_dcf_value cash_flows g r N).
Proof.
  intros Hfew.
  destruct (Nat.lt_ge_cases (length cash_flows) 2) as [Hshort | Hlen].
  - left. now apply dcf_short.
  - right. now apply dcf_few_positive.
Qed.

(** ** The growth estimate *)

Section Growth.

Variable cf : list R.
Hypothesis cf_positive : Forall (fun x => 0 < x) cf.
Hypothesis cf_two : (2 <= length cf)%nat.

Lemma ratio_positive : 0 < last cf 0 / hd 0 cf.
Proof.
  pose proof (two_nonempty _ cf_two) as Hne.
  apply Rdiv_lt_0_compat;
    [now apply last_positive | now apply hd_positive].
Qed.

Lemma cagr_above_total_loss : -1 < cagr cf.
Proof.
  unfold cagr, Rpower.
  pose proof (exp_pos (1 / INR (length cf - 1) * ln (last cf 0 / hd 0 cf))).
  lra.
Qed.

(** Compounding the estimate over the [n - 1] steps of the history
    takes the first retained cash flow to the last. *)
Lemma cagr_compounds :
  (1 + cagr cf) ^ (length cf - 1) = last cf 0 / hd 0 cf.
Proof.
  unfold cagr.
  replace (1 + (Rpower (last cf 0 / hd 0 cf) (1 / INR (length cf - 1)) - 1))
    with (Rpower (last cf 0 / hd 0 cf) (1 / INR (length cf - 1))) by lra.
  rewrite <- Rpower_pow by apply exp_pos.
  rewrite Rpower_mult.
  replace (1 / INR (length cf - 1) * INR (length cf - 1)) with 1.
  - apply Rpower_1, ratio_positive.
  - field. apply not_0_INR. lia.
Qed.

Lemma cagr_flat : last cf 0 = hd 0 cf -> cagr cf = 0.
Proof.
  intros Heq. unfold cagr. rewrite Heq.
  pose proof (hd_positive cf cf_positive (two_nonempty _ cf_two)) as Hhd.
  replace (hd 0 cf / hd 0 cf) with 1 by (field; lra).
  unfold Rpower. rewrite ln_1, Rmult_0_r, exp_0. lra.
Qed.

Lemma growth_capped : growth cf <= 0.15.
Proof. unfold growth. rewrite min_is_Rmin. apply Rmin_r. Qed.

Lemma growth_above_total_loss : -1 < growth cf.
Proof.
  unfold growth. rewrite min_is_Rmin.
  apply Rmin_glb_lt; [apply cagr_above_total_loss | lra].
Qed.

Lemma projected_positive (k : nat) : 0 < projected cf k.
Proof.
  unfold projected. apply Rmult_lt_0_compat.
  - apply last_positive; [assumption | now apply two_nonempty].
  - apply pow_lt. pose proof growth_above_total_loss. lra.
Qed.

End Growth.

(** With two retained cash flows the estimate is the plain growth
    between them. *)
Lemma cagr_pair (a b : R) : 0 < a -> 0 < b -> cagr [a; b] = b / a - 1.
Proof.
  intros Ha Hb. unfold cagr. simpl.
  replace (1 / 1) with 1 by lra.
  rewrite Rpower_1; [reflexivity |].
  now apply Rdiv_lt_0_compat.
Qed.

Lemma nth_map_seq (F : nat -> R) (n k : nat) :
  (1 <= k <= n)%nat -> nth (k - 1) (map F (seq 1 n)) 0 = F k.
Proof.
  intros Hk.
  rewrite (nth_indep _ 0 (F 0%nat)) by (rewrite length_map, length_seq; lia).
  rewrite map_nth, seq_nth by lia.
  f_equal. lia.
Qed.

(** ** Worked inputs *)

Lemma retained_example : filter is_positive [100; 110; 121] = [100; 110; 121].
Proof. retain. Qed.

Lemma dcf_example :
  _calculate_dcf_value [100; 110; 121] 0.025 0.10 5
  = Return (ValuationDict (valuation [100; 110; 121] 0.025 0.10 5)).
Proof.
  rewrite dcf_run; rewrite ?retained_example; simpl; try lia; try lra.
  reflexivity.
Qed.

(** The history [100, 110, 121] grows by 10% a year and is projected to
    133.1 for the first forecast year. *)
Lemma cagr_example : cagr [100; 110; 121] = 0.10.
Proof.
  assert (Hpos : Forall (fun x => 0 < x) [100; 110; 121])
    by (repeat constructor; lra).
  assert (Htwo : (2 <= length [100; 110; 121]%R)%nat) by (simpl; lia).
  pose proof (cagr_compounds _ Hpos Htwo) as Hsq.
  pose proof (cagr_above_total_loss [100; 110; 121]) as Hlow.
  simpl in Hsq.
  assert (Hroot : (1 + cagr [100; 110; 121] - 1.1)
                  * (1 + cagr [100; 110; 121] + 1.1) = 0) by lra.
  apply Rmult_integral in Hroot. lra.
Qed.

Lemma projected_example : projected [100; 110; 121] 1 = 133.1.
Proof.
  unfold projected, growth. rewrite cagr_example, min_is_Rmin.
  rewrite Rmin_left by lra. simpl. lra.
Qed.

(** ** The valuation identity *)



(** ** Historical growth *)


Lemma dcf_flat_example :
  _calculate_dcf_value [100; 100; 100] 0.025 0.10 5
  = Return (ValuationDict (valuation [100; 100; 100] 0.025 0.10 5)).
Proof.
  assert (Hcf : filter is_positive [100; 100; 100] = [100; 100; 100])
    by retain.
  rewrite dcf_run; rewrite ?Hcf; simpl; try lia; try lra.
  reflexivity.
Qed.


(** ** Forecast growth *)




(** ** Projection *)



(** ** Terminal value *)



(** ** Insufficient data *)

(** C6. For every cash-flow sequence of length < 2, and for every
    sequence with fewer than 2 strictly positive entries, the function
    returns an insufficient-data error dictionary and no valuation. *)
Theorem too_few_cash_flows_rejected (cash_flows : list R) (g r : R) (N : Z) :
  (length cash_flows < 2)%nat
  \/ (length (filter is_positive cash_flows) < 2)%nat ->
  InsufficientDataError (_calculate_dcf_value cash_flows g r N)
  /\ ~ returns_valuation (_calculate_dcf_value cash_flows g r N).
Proof.
  intros H.
  assert (Hfew : (length (filter is_positive cash_flows) < 2)%nat).
  { destruct H as [H | H]; [| exact H].
    pose proof (retained_length cash_flows). lia. }
  pose proof (dcf_insufficient cash_flows g r N Hfew) as Herr.
  split; [exact Herr | now apply insufficient_no_valuation].
Qed.

Lemma too_few_cash_flows_rejected_witness :
  InsufficientDataError (_calculate_dcf_value [100; -50; 0] 0.025 0.10 5)
  /\ ~ returns_valuation (_calculate_dcf_value [100; -50; 0] 0.025 0.10 5).
Proof.
  apply too_few_cash_flows_rejected. right.
  assert (Hcf : filter is_positive [100; -50; 0] = [100]) by retain.
  rewrite Hcf. simpl. lia.
Defined.

(** ** Filtering before the call *)

Lemma retained_mixed_example :
  filter is_positive [100; -50; 110; 121] = [100; 110; 121].
Proof. retain. Qed.

(** C7, as stated, fails: [100, -50] has two entries but one positive
    entry, so the call on it ends at the second check, while the call on
    its positive subsequence [100] ends at the first; the two error
    dictionaries carry different messages. *)
Lemma filtering_changes_error :
  _calculate_dcf_value [100; -50] 0.025 0.10 5
  = Return (ErrorDict "Insufficient positive cash flow data")
  /\ _calculate_dcf_value (filter is_positive [100; -50]) 0.025 0.10 5
     = Return (ErrorDict "Insufficient cash flow data for DCF calculation")
  /\ _calculate_dcf_value [100; -50] 0.025 0.10 5
     <> _calculate_dcf_value (filter is_positive [100; -50]) 0.025 0.10 5.
Proof.
  assert (Hcf : filter is_positive [100; -50] = [100]) by retain.
  assert (H1 : _calculate_dcf_value [100; -50] 0.025 0.10 5
               = Return (ErrorDict "Insufficient positive cash flow data")).
  { apply dcf_few_positive; rewrite ?Hcf; simpl; lia. }
  assert (H2 : _calculate_dcf_value (filter is_positive [100; -50])
                                    0.025 0.10 5
               = Return (ErrorDict
                           "Insufficient cash flow data for DCF calculation")).
  { apply dcf_short. rewrite Hcf. simpl. lia. }
  repeat split; try assumption.
  rewrite H1, H2. discriminate.
Qed.

(** C7, amended. For a sequence with at least 2 strictly positive entries
    (or with fewer than 2 entries in all) the call on the sequence and the
    call on its strictly positive subsequence give the same outcome; when
    fewer than 2 positive entries remain both calls return an
    insufficient-data error dictionary.  [100, -50, 110, 121] gives the
    same outcome as [100, 110, 121]. *)
Theorem filtering_first (cash_flows : list R) (g r : R) (N : Z) :
  let cf := filter is_positive cash_flows in
  ((length cash_flows < 2)%nat \/ (2 <= length cf)%nat ->
   _calculate_dcf_value cash_flows g r N = _calculate_dcf_value cf g r N)
  /\ ((length cf < 2)%nat ->
      InsufficientDataError (_calculate_dcf_value cash_flows g r N)
      /\ InsufficientDataError (_calculate_dcf_value cf g r N))
  /\ _calculate_dcf_value [100; -50; 110; 121] g r N
     = _calculate_dcf_value [100; 110; 121] g r N.
Proof.
  intros cf.
  assert (Hsame : forall l : list R,
             (2 <= length (filter is_positive l))%nat ->
             _calculate_dcf_value l g r N
             = _calculate_dcf_value (filter is_positive l) g r N).
  { intros l Hl.
    rewrite (dcf_enough l) by assumption.
    rewrite (dcf_enough (filter is_positive l))
      by now rewrite retained_idempotent.
    now rewrite retained_idempotent. }
  split; [| split].
  - intros [Hshort | Htwo]; [| now apply Hsame].
    pose proof (retained_length cash_flows).
    rewrite (dcf_short cash_flows) by lia.
    rewrite (dcf_short cf) by (unfold cf; lia). reflexivity.
  - intros Hfew. split; apply dcf_insufficient; [exact Hfew |].
    unfold cf in *. now rewrite retained_idempotent.
  - rewrite (Hsame [100; -50; 110; 121])
      by (rewrite retained_mixed_example; simpl; lia).
    now rewrite retained_mixed_example.
Qed.

Lemma filtering_first_witness :
  _calculate_dcf_value [100; -50; 110; 121] 0.025 0.10 5
  = _calculate_dcf_value (filter is_positive [100; -50; 110; 121])
                         0.025 0.10 5.
Proof.
  apply (proj1 (filtering_first [100; -50; 110; 121] 0.025 0.10 5)).
  right. rewrite retained_mixed_example. simpl. lia.
Defined.

(** ** Sensitivity to the discount rate *)

Lemma dcf_unit_example (g r : R) :
  r <> g -> r <> -1 ->
  _calculate_dcf_value [1; 1] g r 1
  = Return (ValuationDict (valuation [1; 1] g r 1)).
Proof.
  intros Hg Hr.
  assert (Hcf : filter is_positive [1; 1] = [1; 1]) by retain.
  rewrite dcf_run; rewrite ?Hcf; simpl; try lia; try assumption.
  reflexivity.
Qed.

Lemma unit_enterprise_value (g r : R) :
  r <> g -> r <> -1 -> enterprise_value (valuation [1; 1] g r 1) = 1 / (r - g).
Proof.
  intros Hg Hr.
  cbn [valuation enterprise_value Sigma].
  unfold perpetuity, projected, growth.
  rewrite cagr_pair by lra.
  replace (1 / 1 - 1) with 0 by lra.
  replace (Py.min 0 0.15) with 0
    by (rewrite min_is_Rmin; symmetry; apply Rmin_left; lra).
  simpl. field. split; lra.
Qed.

(** C8, as stated, fails: with cash flows [1, 1], terminal growth 0.25
    and a one-year horizon, raising the discount rate from 0 to 0.5 raises
    the enterprise value from -4 to 4. *)
Lemma discount_rate_not_monotone :
  exists res1 res2 : DCFResult,
    _calculate_dcf_value [1; 1] 0.25 0 1 = Return (ValuationDict res1)
    /\ _calculate_dcf_value [1; 1] 0.25 0.5 1 = Return (ValuationDict res2)
    /\ enterprise_value res1 = -4
    /\ enterprise_value res2 = 4
    /\ 0 < 0.5
    /\ ~ enterprise_value res2 < enterprise_value res1.
Proof.
  exists (valuation [1; 1] 0.25 0 1), (valuation [1; 1] 0.25 0.5 1).
  rewrite !unit_enterprise_value by lra.
  repeat split; try (apply dcf_unit_example; lra); try lra.
Qed.

Section DiscountRate.

Variable cf : list R.
Hypothesis cf_positive : Forall (fun x => 0 < x) cf.
Hypothesis cf_two : (2 <= length cf)%nat.
Variables g r1 r2 : R.
Hypothesis above_growth : g < r1.
Hypothesis above_total_loss : -1 < r1.
Hypothesis rates_ordered : r1 < r2.

(** The last forecast year and the perpetuity that follows it add up to
    one perpetuity starting a year earlier. *)
Lemma final_year_and_perpetuity (p r : R) (m : nat) :
  g < r -> -1 < r ->
  p / (1 + r) ^ S m + p * (1 + g) / (r - g) / (1 + r) ^ S m
  = p / ((r - g) * (1 + r) ^ m).
Proof.
  intros Hg Hr.
  assert (Hpow : (1 + r) ^ m <> 0) by (apply pow_nonzero; lra).
  simpl. field. repeat split; try assumption; lra.
Qed.

Lemma discount_factor_grows (k : nat) : (1 + r1) ^ k <= (1 + r2) ^ k.
Proof. apply pow_incr. lra. Qed.

Lemma forecast_part_decreases (n : nat) :
  Sigma n (fun k => projected cf k / (1 + r2) ^ k)
  <= Sigma n (fun k => projected cf k / (1 + r1) ^ k).
Proof.
  apply Sigma_le. intros k _.
  pose proof (projected_positive cf cf_positive cf_two k) as Hp.
  assert (H1 : 0 < (1 + r1) ^ k) by (apply pow_lt; lra).
  pose proof (discount_factor_grows k) as H2.
  unfold Rdiv. apply Rmult_le_compat_l; [lra |].
  now apply Rinv_le_contravar.
Qed.

Lemma merged_perpetuity_decreases (m : nat) :
  projected cf (S m) / ((r2 - g) * (1 + r2) ^ m)
  < projected cf (S m) / ((r1 - g) * (1 + r1) ^ m).
Proof.
  pose proof (projected_positive cf cf_positive cf_two (S m)) as Hp.
  assert (H1 : 0 < (1 + r1) ^ m) by (apply pow_lt; lra).
  pose proof (discount_factor_grows m) as H2.
  assert (Hd1 : 0 < (r1 - g) * (1 + r1) ^ m)
    by (apply Rmult_lt_0_compat; lra).
  assert (Hd : (r1 - g) * (1 + r1) ^ m < (r2 - g) * (1 + r2) ^ m).
  { apply Rlt_le_trans with ((r2 - g) * (1 + r1) ^ m).
    - apply Rmult_lt_compat_r; lra.
    - apply Rmult_le_compat_l; lra. }
  unfold Rdiv. apply Rmult_lt_compat_l; [assumption |].
  apply Rinv_lt_contravar; [| assumption].
  apply Rmult_lt_0_compat; lra.
Qed.

Lemma valuation_decreases (n : nat) :
  (1 <= n)%nat ->
  enterprise_value (valuation cf g r2 n)
  < enterprise_value (valuation cf g r1 n).
Proof.
  intros Hn. destruct n as [| m]; [lia |].
  cbn [valuation enterprise_value]. unfold perpetuity.
  cbn [Sigma].
  rewrite !Rplus_assoc.
  rewrite !final_year_and_perpetuity by lra.
  apply Rplus_le_lt_compat.
  - apply forecast_part_decreases.
  - apply merged_perpetuity_decreases.
Qed.

End DiscountRate.

(** C8, amended. In exact arithmetic (the floats taken as real numbers:
    no rounding, no overflow), with at least 2 strictly positive cash
    flows and a horizon of at least one year, for discount rates r1 < r2
    with r1 above the terminal growth rate and above -1, both calls return
    a valuation and the enterprise value at r2 is strictly below the one
    at r1.  On floats the two values can round to the same number when r1
    and r2 are adjacent. *)
Theorem enterprise_value_decreasing (cash_flows : list R) (g r1 r2 : R)
        (N : Z) :
  (2 <= length (filter is_positive cash_flows))%nat ->
  (1 <= N)%Z ->
  g < r1 -> -1 < r1 -> r1 < r2 ->
  exists res1 res2 : DCFResult,
    _calculate_dcf_value cash_flows g r1 N = Return (ValuationDict res1)
    /\ _calculate_dcf_value cash_flows g r2 N = Return (ValuationDict res2)
    /\ enterprise_value res2 < enterprise_value res1.
Proof.
  intros Htwo HN Hg Hr Hlt.
  eexists; eexists.
  split; [apply dcf_run; try assumption; lra |].
  split; [apply dcf_run; try assumption; lra |].
  apply valuation_decreases; try assumption; try lia.
  apply retained_positive.
Qed.

Lemma enterprise_value_decreasing_witness :
  exists res1 res2 : DCFResult,
    _calculate_dcf_value [100; 110; 121] 0.025 0.10 5
    = Return (ValuationDict res1)
    /\ _calculate_dcf_value [100; 110; 121] 0.025 0.12 5
       = Return (ValuationDict res2)
    /\ enterprise_value res2 < enterprise_value res1.
Proof.
  apply enterprise_value_decreasing;
    rewrite ?retained_example; simpl; try lia; lra.
Defined.

(** ** Discount rate at or below the terminal growth rate *)

(** C9, as stated, fails when the two rates are equal: the divisor of the
    terminal value is zero and the division raises, so no dictionary is
    returned. *)
Lemma equal_rates_raise :
  0.025 <= 0.025
  /\ (2 <= length (filter is_positive [100; 110; 121]%R))%nat
  /\ _calculate_dcf_value [100; 110; 121] 0.025 0.025 5
     = Raise ZeroDivisionError
  /\ ~ returns_valuation (_calculate_dcf_value [100; 110; 121] 0.025 0.025 5).
Proof.
  assert (Hlen : (2 <= length (filter is_positive [100; 110; 121]%R))%nat)
    by (rewrite retained_example; simpl; lia).
  assert (Hrun : _calculate_dcf_value [100; 110; 121] 0.025 0.025 5
                 = Raise ZeroDivisionError).
  { rewrite dcf_enough by exact Hlen.
    apply discount_equal_rates; [lia | reflexivity]. }
  repeat split; try assumption; try lra.
  rewrite Hrun. intros [res Hres]. discriminate.
Qed.

(** C9, amended. With at least 2 strictly positive cash flows and a
    horizon of at least one year: when the discount rate is strictly below
    the terminal growth rate (and is not -1) no validation stops the call;
    it returns a valuation whose terminal value is
    projected[forecast_years] * (1 + g) / (r - g), negative whenever
    g > -1, and that value, discounted, is part of the enterprise value.
    When the two rates are equal the call raises ZeroDivisionError. *)
Theorem rates_not_validated (cash_flows : list R) (g r : R) (N : Z) :
  (2 <= length (filter is_positive cash_flows))%nat ->
  (1 <= N)%Z ->
  (r < g -> r <> -1 ->
   exists res : DCFResult,
     _calculate_dcf_value cash_flows g r N = Return (ValuationDict res)
     /\ terminal_value res
        = nth (Z.to_nat N - 1) (projected_cash_flows res) 0 * (1 + g)
          / (r - g)
     /\ enterprise_value res
        = pv_cash_flows res + terminal_value res / (1 + r) ^ Z.to_nat N
     /\ (-1 < g -> terminal_value res < 0))
  /\ (r = g ->
      _calculate_dcf_value cash_flows g r N = Raise ZeroDivisionError).
Proof.
  intros Htwo HN. split.
  - intros Hlt Hr. eexists.
    split; [apply dcf_run; try assumption; lra |].
    cbn [valuation terminal_value enterprise_value pv_cash_flows
         projected_cash_flows].
    split; [rewrite nth_map_seq by lia; reflexivity |].
    split; [reflexivity |].
    intros Hg. unfold perpetuity.
    pose proof (projected_positive _ (retained_positive cash_flows) Htwo
                                   (Z.to_nat N)) as Hp.
    assert (Hnum : 0 < projected (filter is_positive cash_flows) (Z.to_nat N)
                       * (1 + g))
      by (apply Rmult_lt_0_compat; lra).
    unfold Rdiv.
    assert (Hinv : / (r - g) < 0) by (apply Rinv_lt_0_compat; lra).
    nra.
  - intros Heq. rewrite dcf_enough by assumption.
    now apply discount_equal_rates.
Qed.

Lemma rates_not_validated_witness :
  exists res : DCFResult,
    _calculate_dcf_value [100; 110; 121] 0.025 0.02 5
    = Return (ValuationDict res)
    /\ terminal_value res < 0.
Proof.
  assert (Hlen : (2 <= length (filter is_positive [100; 110; 121]%R))%nat)
    by (rewrite retained_example; simpl; lia).
  assert (HN : (1 <= 5)%Z) by lia.
  assert (Hlt : 0.02 < 0.025) by lra.
  assert (Hr : 0.02 <> -1) by lra.
  assert (Hg : -1 < 0.025) by lra.
  destruct (proj1 (rates_not_validated [100; 110; 121] 0.025 0.02 5 Hlen HN)
                  Hlt Hr) as (res & Hrun & _ & _ & Hneg).
  exists res. split; [exact Hrun | exact (Hneg Hg)].
Defined.

(** ** When a valuation is returned *)

(** C10, as stated, fails: a discount rate of -1 meets the three stated
    preconditions, yet every discount factor (1 + r)^i is zero and, on
    plain Python numbers, the first discounting division raises. *)
Lemma total_loss_rate_raises :
  (2 <= length (filter is_positive [100; 110; 121]%R))%nat
  /\ (1 <= 5)%Z
  /\ -1 <> 0.025
  /\ _calculate_dcf_value [100; 110; 121] 0.025 (-1) 5
     = Raise ZeroDivisionError
  /\ ~ returns_valuation (_calculate_dcf_value [100; 110; 121] 0.025 (-1) 5).
Proof.
  assert (Hlen : (2 <= length (filter is_positive [100; 110; 121]%R))%nat)
    by (rewrite retained_example; simpl; lia).
  assert (Hrun : _calculate_dcf_value [100; 110; 121] 0.025 (-1) 5
                 = Raise ZeroDivisionError).
  { rewrite dcf_enough by exact Hlen.
    apply discount_total_loss; [lia | lra | reflexivity]. }
  repeat split; try assumption; try lia; try lra.
  rewrite Hrun. intros [res Hres]. discriminate.
Qed.

(** C10, amended. For plain Python numbers and in exact arithmetic (no
    rounding, overflow or underflow): with at least 2 strictly positive
    cash flows, forecast_years >= 1, a discount rate different from the
    terminal growth rate and a discount rate different from -1, every list
    access and division is defined and the call returns a valuation; with
    forecast_years <= 0 the projection list is empty and taking its last
    element raises IndexError, so no valuation is returned. *)
Theorem valuation_returned (cash_flows : list R) (g r : R) (N : Z) :
  (2 <= length (filter is_positive cash_flows))%nat ->
  ((1 <= N)%Z -> r <> g -> r <> -1 ->
   returns_valuation (_calculate_dcf_value cash_flows g r N))
  /\ ((N <= 0)%Z ->
      _calculate_dcf_value cash_flows g r N = Raise IndexError
      /\ ~ returns_valuation (_calculate_dcf_value cash_flows g r N)).
Proof.
  intros Htwo. split.
  - intros HN Hg Hr. eexists. now apply dcf_run.
  - intros HN.
    assert (Hrun : _calculate_dcf_value cash_flows g r N = Raise IndexError).
    { rewrite dcf_enough by assumption. now apply discount_no_horizon. }
    split; [exact Hrun |].
    rewrite Hrun. intros [res Hres]. discriminate.
Qed.

Lemma valuation_returned_witness :
  returns_valuation (_calculate_dcf_value [100; 110; 121] 0.025 0.10 5)
  /\ _calculate_dcf_value [100; 110; 121] 0.025 0.10 0 = Raise IndexError.
Proof.
  assert (Hlen : (2 <= length (filter is_positive [100; 110; 121]%R))%nat)
    by (rewrite retained_example; simpl; lia).
  split.
  - apply (proj1 (valuation_returned [100; 110; 121] 0.025 0.10 5 Hlen));
      try lia; lra.
  - apply (proj2 (valuation_returned [100; 110; 121] 0.025 0.10 0 Hlen)).
    lia.
Defined.

(** * Further properties of the engine *)

(** ** Changing the currency unit *)










(** ** What the history contributes *)

Lemma cagr_endpoints (cf cf' : list R) :
  length cf = length cf' -> hd 0 cf = hd 0 cf' -> last cf 0 = last cf' 0 ->
  cagr cf = cagr cf'.
Proof. intros Hn Hh Hl. unfold cagr. now rewrite Hn, Hh, Hl. Qed.

(** X2. Of the retained (strictly positive) cash flows only the first,
    the last and their number matter: two histories that agree on these
    three, each with at least 2 positive entries, give the same outcome,
    whatever lies in between. *)
Theorem only_endpoints_matter (cash_flows cash_flows' : list R) (g r : R)
        (N : Z) :
  let cf := filter is_positive cash_flows in
  let cf' := filter is_positive cash_flows' in
  (2 <= length cf)%nat ->
  length cf = length cf' ->
  hd 0 cf = hd 0 cf' ->
  last cf 0 = last cf' 0 ->
  _calculate_dcf_value cash_flows g r N
  = _calculate_dcf_value cash_flows' g r N.
Proof.
  intros cf cf' Htwo Hn Hh Hl.
  rewrite (dcf_enough cash_flows) by assumption.
  rewrite (dcf_enough cash_flows') by (fold cf'; lia).
  fold cf cf'. unfold discount_projection, growth.
  now rewrite (cagr_endpoints cf cf'), Hl.
Qed.

Lemma only_endpoints_matter_witness :
  _calculate_dcf_value [100; 400; 121] 0.025 0.10 5
  = _calculate_dcf_value [100; -7; 3; 0; 121] 0.025 0.10 5.
Proof.
  assert (H1 : filter is_positive [100; 400; 121] = [100; 400; 121])
    by retain.
  assert (H2 : filter is_positive [100; -7; 3; 0; 121] = [100; 3; 121])
    by retain.
  apply only_endpoints_matter; rewrite ?H1, ?H2; simpl; try lia; reflexivity.
Defined.

(** ** Sign and size of the growth estimate *)






(** ** Shape of the projection *)



(** X5. Whenever a valuation is returned for a history whose first and
    last retained cash flows are equal, the forecast growth rate is 0 and
    every projected cash flow equals that last cash flow. *)
Theorem flat_history_flat_projection (cash_flows : list R) (g r : R)
        (N : Z) (res : DCFResult) :
  _calculate_dcf_value cash_flows g r N = Return (ValuationDict res) ->
  let cf := filter is_positive cash_flows in
  last cf 0 = hd 0 cf ->
  forecast_growth_rate res = 0
  /\ projected_cash_flows res = repeat (last cf 0) (Z.to_nat N).
Proof.
  intros Hrun cf Hflat.
  apply dcf_inversion in Hrun as (Htwo & HN & _ & _ & ->).
  pose proof (retained_positive cash_flows) as Hpos.
  fold cf in Htwo, Hpos |- *.
  cbn [valuation projected_cash_flows forecast_growth_rate].
  assert (Hg : growth cf = 0).
  { unfold growth. rewrite (cagr_flat cf Hpos Htwo Hflat), min_is_Rmin.
    apply Rmin_left. lra. }
  split; [exact Hg |].
  assert (Hp : forall k, projected cf k = last cf 0).
  { intros k. unfold projected. rewrite Hg, Rplus_0_r, pow1. ring. }
  generalize 1%nat.
  induction (Z.to_nat N) as [| n IH]; intros s; simpl; [reflexivity |].
  now rewrite Hp, IH.
Qed.

Lemma flat_history_flat_projection_witness :
  exists res,
    _calculate_dcf_value [100; 100; 100] 0.025 0.10 5
    = Return (ValuationDict res)
    /\ projected_cash_flows res = [100; 100; 100; 100; 100].
Proof.
  eexists. split; [exact dcf_flat_example |].
  assert (Hcf : filter is_positive [100; 100; 100] = [100; 100; 100])
    by retain.
  pose proof (flat_history_flat_projection _ _ _ _ _ dcf_flat_example) as H.
  cbv zeta in H. rewrite Hcf in H.
  exact (proj2 (H eq_refl)).
Defined.

(** ** The forecast horizon *)








(** ** Rates in their intended order *)

Lemma Sigma_pos (n : nat) (F : nat -> R) :
  (1 <= n)%nat -> (forall k, 0 < F k) -> 0 < Sigma n F.
Proof.
  intros Hn HF. induction n as [| n IH]; [lia |].
  simpl. destruct n as [| m].
  - simpl. pose proof (HF 1%nat). lra.
  - pose proof (HF (S (S m))). assert (0 < Sigma (S m) F) by (apply IH; lia).
    lra.
Qed.

(** X8. Whenever a valuation is returned with
    -1 < terminal growth rate < discount rate, the terminal value, both
    present values and the enterprise value are strictly positive, and the
    present value of the terminal value is below the terminal value when
    the discount rate is positive. *)
Theorem ordered_rates_positive_value (cash_flows : list R) (g r : R) (N : Z)
        (res : DCFResult) :
  _calculate_dcf_value cash_flows g r N = Return (ValuationDict res) ->
  -1 < g -> g < r ->
  0 < terminal_value res
  /\ 0 < pv_cash_flows res
  /\ 0 < pv_terminal_value res
  /\ 0 < enterprise_value res
  /\ (0 < r -> pv_terminal_value res < terminal_value res).
Proof.
  intros Hrun Hg Hlt.
  apply dcf_inversion in Hrun as (Htwo & HN & _ & _ & ->).
  pose proof (retained_positive cash_flows) as Hpos.
  set (cf := filter is_positive cash_flows) in *.
  set (n := Z.to_nat N).
  cbn [valuation terminal_value pv_cash_flows pv_terminal_value
       enterprise_value].
  assert (Hfac : forall k, 0 < (1 + r) ^ k) by (intros k; apply pow_lt; lra).
  assert (Hterm : 0 < perpetuity cf g r n).
  { unfold perpetuity. apply Rdiv_lt_0_compat; [| lra].
    apply Rmult_lt_0_compat; [now apply projected_positive | lra]. }
  assert (Hpv : 0 < Sigma n (fun k => projected cf k / (1 + r) ^ k)).
  { apply Sigma_pos; [subst n; lia |]. intros k.
    apply Rdiv_lt_0_compat; [now apply projected_positive | apply Hfac]. }
  assert (Hpvt : 0 < perpetuity cf g r n / (1 + r) ^ n)
    by (apply Rdiv_lt_0_compat; [assumption | apply Hfac]).
  repeat split; try assumption; try lra.
  intros Hr.
  assert (Hone : 1 < (1 + r) ^ n).
  { apply Rlt_pow_R1; [lra | subst n; lia]. }
  apply Rmult_lt_reg_r with ((1 + r) ^ n); [apply Hfac |].
  unfold Rdiv. rewrite Rmult_assoc, Rinv_l by (pose proof (Hfac n); lra).
  nra.
Qed.

Lemma ordered_rates_positive_value_witness :
  exists res,
    _calculate_dcf_value [100; 110; 121] 0.025 0.10 5
    = Return (ValuationDict res)
    /\ 0 < enterprise_value res.
Proof.
  eexists. split; [exact dcf_example |].
  assert (Hg : -1 < 0.025) by lra.
  assert (Hlt : 0.025 < 0.10) by lra.
  exact (proj1 (proj2 (proj2 (proj2
           (ordered_rates_positive_value _ _ _ _ _ dcf_example Hg Hlt))))).
Defined.




(** * Properties of the tools' computations *)

(** ** [compare_industry_valuation]: the level against the industry mean *)

Ltac level_cases :=
  unfold valuation_level;
  repeat match goal with
         | |- context [Rlt_dec ?a ?b] => destruct (Rlt_dec a b)
         | |- context [Rle_dec ?a ?b] => destruct (Rle_dec a b)
         end;
  simpl; try reflexivity; try lia; try lra.

(** X10. Against a fixed industry mean, a higher target value never gets
    a lower level: the five levels are ordered from clearly undervalued to
    clearly overvalued and the level is monotone in the target value,
    whatever the sign of the mean. *)
Theorem level_monotone (t1 t2 mean_value : R) :
  t1 <= t2 ->
  (level_rank (valuation_level t1 mean_value)
   <= level_rank (valuation_level t2 mean_value))%nat.
Proof. intros H. level_cases. Qed.

Lemma level_monotone_witness :
  (level_rank (valuation_level 8 10) <= level_rank (valuation_level 12 10))%nat.
Proof. apply level_monotone. lra. Defined.

(** X11. A target value equal to the industry mean is rated fairly
    valued when the mean is positive or zero, but clearly undervalued when
    the mean is negative; with a negative mean only the two extreme levels
    occur, clearly undervalued exactly below 0.8 times the mean. *)
Theorem level_at_negative_mean (target_value mean_value : R) :
  (0 <= mean_value -> valuation_level mean_value mean_value = FairlyValued)
  /\ (mean_value < 0 ->
      valuation_level mean_value mean_value = ClearlyUndervalued
      /\ (target_value < mean_value * 0.8 ->
          valuation_level target_value mean_value = ClearlyUndervalued)
      /\ (mean_value * 0.8 <= target_value ->
          valuation_level target_value mean_value = ClearlyOvervalued)).
Proof.
  split; [| split; [| split]]; intros; level_cases.
Qed.

Lemma level_at_negative_mean_witness :
  valuation_level (-20) (-20) = ClearlyUndervalued
  /\ valuation_level (-10) (-20) = ClearlyOvervalued.
Proof.
  assert (Hm : -20 < 0) by lra.
  destruct (proj2 (level_at_negative_mean (-10) (-20)) Hm) as (H1 & _ & H3).
  split; [exact H1 | apply H3; lra].
Defined.

(** ** [calculate_peg_ratio]: the growth rate and the reading *)

Lemma nonempty_frame_row (df : Pd.frame) :
  Pd.empty df = false -> exists row rest, Pd.rows df = row :: rest.
Proof.
  unfold Pd.empty. destruct (Pd.columns df), (Pd.rows df) as [| row rest];
    try discriminate.
  intros _. now exists row, rest.
Qed.

Lemma probe_growth_rate_nonzero (cols : list string) (growth_data : Pd.frame)
      (rate : R) (col : string) :
  probe_growth_rate cols growth_data = Return (Some (rate, col)) ->
  rate <> 0.
Proof.
  induction cols as [| c cols IH]; simpl; [discriminate |].
  destruct (Pd.has_column c growth_data); [| exact IH].
  destruct (Pd.iloc0 growth_data c) as [[x |] | e]; simpl;
    try discriminate; try exact IH.
  destruct (Req_dec_T x 0) as [Hz | Hnz]; [exact IH |].
  intros H. injection H as <- _. exact Hnz.
Qed.

Section GrowthProbe.

Variable growth_data : Pd.frame.
Variable row : string -> option R.
Variable rest : list (string -> option R).
Hypothesis first_row : Pd.rows growth_data = row :: rest.

Let usable (col : string) (rate : R) : Prop :=
  Pd.has_column col growth_data = true /\ row col = Some rate /\ rate <> 0.

Lemma usable_or_not (col : string) :
  (exists rate, usable col rate) \/ (forall rate, ~ usable col rate).
Proof.
  unfold usable.
  destruct (Pd.has_column col growth_data);
    [| right; intros rate (H & _); discriminate].
  destruct (row col) as [x |];
    [| right; intros rate (_ & H & _); discriminate].
  destruct (Req_dec_T x 0) as [Hz | Hnz].
  - right. intros rate (_ & H & H0). congruence.
  - left. exists x. auto.
Qed.

Lemma probe_takes_usable (col : string) (cols : list string) (rate : R) :
  usable col rate ->
  probe_growth_rate (col :: cols) growth_data = Return (Some (rate, col)).
Proof.
  intros (Hc & Hx & Hnz). simpl. rewrite Hc.
  unfold Pd.iloc0. rewrite first_row. simpl. rewrite Hx.
  destruct (Req_dec_T rate 0); [contradiction | reflexivity].
Qed.

Lemma probe_skips_unusable (col : string) (cols : list string) :
  (forall rate, ~ usable col rate) ->
  probe_growth_rate (col :: cols) growth_data
  = probe_growth_rate cols growth_data.
Proof.
  intros Hno. simpl.
  destruct (Pd.has_column col growth_data) eqn:Hc; [| reflexivity].
  unfold Pd.iloc0. rewrite first_row. simpl.
  destruct (row col) as [x |] eqn:Hx; [| reflexivity].
  destruct (Req_dec_T x 0) as [Hz | Hnz]; [reflexivity |].
  exfalso. apply (Hno x). unfold usable. auto.
Qed.

Lemma probe_first_usable (cols : list string) :
  (probe_growth_rate cols growth_data = Return None
   /\ forall col rate, In col cols -> ~ usable col rate)
  \/ (exists before col after rate,
         cols = before ++ col :: after
         /\ probe_growth_rate cols growth_data = Return (Some (rate, col))
         /\ usable col rate
         /\ forall c x, In c before -> ~ usable c x).
Proof.
  induction cols as [| c cols IH].
  - left. split; [reflexivity |]. intros col rate [].
  - destruct (usable_or_not c) as [[x Hx] | Hno].
    + right. exists [], c, cols, x.
      split; [reflexivity |]. split; [now apply probe_takes_usable |].
      split; [exact Hx |]. intros c' x' [].
    + rewrite (probe_skips_unusable c cols Hno).
      destruct IH as [[Hnone Hall] | (before & col & after & rate
                                      & Hsplit & Hsome & Huse & Hbefore)].
      * left. split; [exact Hnone |].
        intros col rate [<- | Hin]; [apply Hno | now apply Hall].
      * right. exists (c :: before), col, after, rate.
        split; [now rewrite Hsplit |]. split; [exact Hsome |].
        split; [exact Huse |].
        intros c' x' [<- | Hin]; [apply Hno | now apply Hbefore].
Qed.

End GrowthProbe.

(** X12. On a non-empty growth frame the probe never raises and takes the
    first column, in the order YOYNI, YOYProfit, YOYEPSBasic, that the
    frame has and whose first cell is a number other than 0: it returns
    that number with the column's name, every earlier column being absent,
    NaN or 0; it returns nothing exactly when no column of the list is
    usable. *)
Theorem growth_probe_first_usable (cols : list string)
        (growth_data : Pd.frame) :
  Pd.empty growth_data = false ->
  exists row rest,
    Pd.rows growth_data = row :: rest
    /\ let usable col rate :=
         Pd.has_column col growth_data = true
         /\ row col = Some rate /\ rate <> 0 in
       (probe_growth_rate cols growth_data = Return None
        /\ forall col rate, In col cols -> ~ usable col rate)
       \/ (exists before col after rate,
              cols = before ++ col :: after
              /\ probe_growth_rate cols growth_data
                 = Return (Some (rate, col))
              /\ usable col rate
              /\ forall c x, In c before -> ~ usable c x).
Proof.
  intros Hne. destruct (nonempty_frame_row _ Hne) as (row & rest & Hrows).
  exists row, rest. split; [exact Hrows |].
  exact (probe_first_usable growth_data row rest Hrows cols).
Qed.

Lemma growth_probe_first_usable_witness :
  exists row rest, Pd.rows sample_growth_data = row :: rest.
Proof.
  assert (Hne : Pd.empty sample_growth_data = false) by reflexivity.
  destruct (growth_probe_first_usable growth_columns sample_growth_data Hne)
    as (row & rest & Hrows & _).
  exists row, rest. exact Hrows.
Defined.

Lemma sample_growth_probe :
  probe_growth_rate growth_columns sample_growth_data
  = Return (Some (12.5, "YOYProfit"%string)).
Proof.
  unfold growth_columns, sample_growth_data. simpl.
  destruct (Req_dec_T 0 0) as [_ | H]; [| now elim H].
  destruct (Req_dec_T 12.5 0) as [H | _]; [lra | reflexivity].
Qed.

Lemma quotient_negative (a b : R) : b <> 0 -> (a / b < 0 <-> a * b < 0).
Proof.
  intros Hb.
  assert (Hsq : 0 < b * b) by nra.
  replace (a * b) with (a / b * (b * b)) by (field; assumption).
  split; intros H; nra.
Qed.

(** X13. With a growth rate found by the probe, the PEG ratio is always
    the finite quotient P/E / growth rate (the fallback float('inf') is
    never taken), and the report reads "negative growth" exactly when P/E
    and growth rate have opposite signs: a negative P/E with a positive
    growth rate is read as negative growth, while a negative P/E with a
    negative growth rate is read on the positive scale. *)
Theorem peg_finite_and_sign (growth_data : Pd.frame) (latest_pe rate : R)
        (col : string) :
  probe_growth_rate growth_columns growth_data = Return (Some (rate, col)) ->
  peg_ratio latest_pe rate = Finite (latest_pe / rate)
  /\ (interpret_peg (peg_ratio latest_pe rate) = NegativeGrowth
      <-> latest_pe * rate < 0)
  /\ (latest_pe < 0 -> 0 < rate ->
      interpret_peg (peg_ratio latest_pe rate) = NegativeGrowth)
  /\ (latest_pe < 0 -> rate < 0 ->
      interpret_peg (peg_ratio latest_pe rate) <> NegativeGrowth).
Proof.
  intros Hprobe. apply probe_growth_rate_nonzero in Hprobe.
  assert (Hpeg : peg_ratio latest_pe rate = Finite (latest_pe / rate)).
  { unfold peg_ratio. destruct (Req_dec_T rate 0); [contradiction |].
    reflexivity. }
  assert (Hsign : interpret_peg (peg_ratio latest_pe rate) = NegativeGrowth
                  <-> latest_pe * rate < 0).
  { rewrite Hpeg, <- quotient_negative by assumption.
    unfold interpret_peg, peg_lt, peg_le.
    destruct (Rlt_dec (latest_pe / rate) 0) as [Hneg | Hpos].
    - tauto.
    - split; [| intros; contradiction].
      repeat match goal with
             | |- context [Rlt_dec ?a ?b] => destruct (Rlt_dec a b)
             | |- context [Rle_dec ?a ?b] => destruct (Rle_dec a b)
             end; discriminate. }
  split; [exact Hpeg |]. split; [exact Hsign |].
  split; intros Hpe Hrate.
  - apply Hsign. nra.
  - intros H. apply Hsign in H. nra.
Qed.

Lemma peg_finite_and_sign_witness :
  peg_ratio (-8) 12.5 = Finite (-8 / 12.5)
  /\ interpret_peg (peg_ratio (-8) 12.5) = NegativeGrowth.
Proof.
  destruct (peg_finite_and_sign sample_growth_data (-8) 12.5 _
                                sample_growth_probe)
    as (Hpeg & _ & Hneg & _).
  split; [exact Hpeg | apply Hneg; lra].
Defined.

(** ** [get_valuation_metrics]: the trend of a metric *)












Lemma metric_trend_inversion (column : list (option R)) (t : trend) :
  metric_trend column = Some t ->
  let values := Pd.dropna column in
  values <> []
  /\ current_val t = last values 0
  /\ avg_val t = Pd.mean values
  /\ min_val t = Pd.min values
  /\ max_val t = Pd.max values
  /\ deviation t
     = (if Req_dec_T (Pd.mean values) 0 then 0
        else (last values 0 / Pd.mean values - 1) * 100)
  /\ percentile t = Pd.share_le (map Some values) (last values 0) * 100.
Proof.
  intros H. cbv zeta. unfold metric_trend in H.
  set (values := Pd.dropna column) in *.
  destruct (0 <? length values)%nat eqn:Hn; [| discriminate].
  injection H as <-. cbn.
  repeat split; try reflexivity.
  apply Nat.ltb_lt in Hn. destruct values; [simpl in Hn; lia | congruence].
Qed.

Section SharePerCent.

Variable values : list R.
Variable x : R.
Hypothesis nonempty : values <> [].

Let hit (cell : option R) : bool :=
  match cell with Some v => Pd.le v x | None => false end.






End SharePerCent.



(** X16. The deviation from the mean is 0 when the mean is 0, whatever
    the current value; for a positive mean it is positive exactly when the
    current value is above the mean, and for a negative mean exactly when
    the current value is below the mean. *)
Theorem trend_deviation_sign (column : list (option R)) (t : trend) :
  metric_trend column = Some t ->
  (avg_val t = 0 -> deviation t = 0)
  /\ (0 < avg_val t -> (0 < deviation t <-> avg_val t < current_val t))
  /\ (avg_val t < 0 -> (0 < deviation t <-> current_val t < avg_val t)).
Proof.
  intros Ht.
  destruct (metric_trend_inversion _ _ Ht)
    as (_ & -> & -> & _ & _ & -> & _).
  set (avg := Pd.mean (Pd.dropna column)).
  set (cur := last (Pd.dropna column) 0).
  destruct (Req_dec_T avg 0) as [Hz | Hnz].
  - repeat split; intros; lra.
  - assert (Hq : cur / avg * avg = cur) by (field; assumption).
    split; [intros; contradiction |].
    split; intros Hs; split; intros H; nra.
Qed.



Lemma trend_deviation_sign_witness :
  exists t,
    metric_trend [Some 5; None; Some (-5)] = Some t /\ deviation t = 0.
Proof.
  eexists. split; [reflexivity |].
  match goal with
  | |- deviation ?t = 0 =>
      apply (proj1 (trend_deviation_sign
                      [Some 5; None; Some (-5)] t eq_refl))
  end.
  cbn [avg_val]. unfold Pd.mean, Py.sum. simpl. lra.
Defined.

(** ** [compare_industry_valuation]: the rank in the industry *)

Section IndustryRank.

Variable target_value : R.

Let hit (cell : option R) : bool :=
  match cell with Some v => Pd.le v target_value | None => false end.






End IndustryRank.



(** ** [calculate_dcf_valuation]: collecting the cash flows *)

Section CashFlowProbe.

Variable cf_data : Pd.frame.
Variable row : string -> option R.
Variable rest : list (string -> option R).
Hypothesis first_row : Pd.rows cf_data = row :: rest.

Let present (field : string) (value : R) : Prop :=
  Pd.has_column field cf_data = true /\ row field = Some value.

Lemma present_or_not (field : string) :
  (exists value, present field value) \/ (forall value, ~ present field value).
Proof.
  unfold present.
  destruct (Pd.has_column field cf_data);
    [| right; intros value (H & _); discriminate].
  destruct (row field) as [x |];
    [| right; intros value (_ & H); discriminate].
  left. exists x. auto.
Qed.

Lemma probe_takes_present (field : string) (fields : list string)
      (value : R) :
  present field value ->
  probe_cash_flow (field :: fields) cf_data = Return (Some value).
Proof.
  intros (Hc & Hx). simpl. rewrite Hc.
  unfold Pd.iloc0. rewrite first_row. simpl. now rewrite Hx.
Qed.

Lemma probe_skips_absent (field : string) (fields : list string) :
  (forall value, ~ present field value) ->
  probe_cash_flow (field :: fields) cf_data = probe_cash_flow fields cf_data.
Proof.
  intros Hno. simpl.
  destruct (Pd.has_column field cf_data) eqn:Hc; [| reflexivity].
  unfold Pd.iloc0. rewrite first_row. simpl.
  destruct (row field) as [x |] eqn:Hx; [| reflexivity].
  exfalso. apply (Hno x). unfold present. auto.
Qed.

Lemma probe_first_present (fields : list string) :
  (probe_cash_flow fields cf_data = Return None
   /\ forall field value, In field fields -> ~ present field value)
  \/ (exists before field after value,
         fields = before ++ field :: after
         /\ probe_cash_flow fields cf_data = Return (Some value)
         /\ present field value
         /\ forall f x, In f before -> ~ present f x).
Proof.
  induction fields as [| f fields IH].
  - left. split; [reflexivity |]. intros field value [].
  - destruct (present_or_not f) as [[x Hx] | Hno].
    + right. exists [], f, fields, x.
      split; [reflexivity |]. split; [now apply probe_takes_present |].
      split; [exact Hx |]. intros f' x' [].
    + rewrite (probe_skips_absent f fields Hno).
      destruct IH as [[Hnone Hall] | (before & field & after & value
                                      & Hsplit & Hsome & Huse & Hbefore)].
      * left. split; [exact Hnone |].
        intros field value [<- | Hin]; [apply Hno | now apply Hall].
      * right. exists (f :: before), field, after, value.
        split; [now rewrite Hsplit |]. split; [exact Hsome |].
        split; [exact Huse |].
        intros f' x' [<- | Hin]; [apply Hno | now apply Hbefore].
Qed.

End CashFlowProbe.

(** X18. On a non-empty cash-flow frame the probe never raises and takes
    the first field, in the order manageCashFlow, operatingCashFlow,
    NCFFromOA, that the frame has and whose first cell is a number: any
    number counts, zero and negative ones too, and every earlier field is
    absent or NaN; it returns nothing exactly when no field of the list
    has a number. *)
Theorem cash_flow_probe_first_number (fields : list string)
        (cf_data : Pd.frame) :
  Pd.empty cf_data = false ->
  exists row rest,
    Pd.rows cf_data = row :: rest
    /\ let present field value :=
         Pd.has_column field cf_data = true /\ row field = Some value in
       (probe_cash_flow fields cf_data = Return None
        /\ forall field value, In field fields -> ~ present field value)
       \/ (exists before field after value,
              fields = before ++ field :: after
              /\ probe_cash_flow fields cf_data = Return (Some value)
              /\ present field value
              /\ forall f x, In f before -> ~ present f x).
Proof.
  intros Hne. destruct (nonempty_frame_row _ Hne) as (row & rest & Hrows).
  exists row, rest. split; [exact Hrows |].
  exact (probe_first_present cf_data row rest Hrows fields).
Qed.

Lemma cash_flow_probe_first_number_witness :
  exists row rest,
    Pd.rows {| Pd.columns := ["manageCashFlow"; "NCFFromOA"]%string;
               Pd.rows := [fun col => if (col =? "NCFFromOA")%string
                                      then Some 0 else None] |}
    = row :: rest.
Proof.
  destruct (cash_flow_probe_first_number
              cf_fields
              {| Pd.columns := ["manageCashFlow"; "NCFFromOA"]%string;
                 Pd.rows := [fun col => if (col =? "NCFFromOA")%string
                                        then Some 0 else None] |}
              eq_refl)
    as (row & rest & Hrows & _).
  exists row, rest. exact Hrows.
Defined.

Lemma sorted_snoc {A : Type} (lt : A -> A -> Prop) (l : list A) (a : A) :
  StronglySorted lt l -> Forall (fun x => lt x a) l ->
  StronglySorted lt (l ++ [a]).
Proof.
  induction 1 as [| x l Hs IH Hx]; intros Hall; simpl.
  - constructor; constructor.
  - inversion Hall as [| ? ? Hxa Hla]; subst.
    constructor; [now apply IH |].
    apply Forall_app. split; [exact Hx | now constructor].
Qed.

Lemma sorted_rev {A : Type} (lt : A -> A -> Prop) (l : list A) :
  StronglySorted (fun x y => lt y x) l -> StronglySorted lt (rev l).
Proof.
  induction 1 as [| x l Hs IH Hx]; simpl; [constructor |].
  apply sorted_snoc; [exact IH |].
  apply Forall_forall. intros y Hy. apply in_rev in Hy.
  rewrite Forall_forall in Hx. now apply Hx.
Qed.

Lemma range_from_0 (n : Z) :
  StronglySorted Z.lt (Py.range 0 n)
  /\ (forall i, In i (Py.range 0 n) <-> (0 <= i < n)%Z)
  /\ length (Py.range 0 n) = Z.to_nat n.
Proof.
  unfold Py.range. rewrite Z.sub_0_r.
  split; [| split].
  - generalize 0%nat as s.
    induction (Z.to_nat n) as [| m IH]; intros s; simpl; constructor.
    + apply IH.
    + apply Forall_forall. intros j Hj.
      apply in_map_iff in Hj as (k & <- & Hk). apply in_seq in Hk. lia.
  - intros i. rewrite in_map_iff. split.
    + intros (k & <- & Hk). apply in_seq in Hk. lia.
    + intros Hi. exists (Z.to_nat i). split; [lia |]. apply in_seq. lia.
  - now rewrite length_map, length_seq.
Qed.

Section Collection.

Variable get_cash_flow_data : Z -> option Pd.frame.
Variable current_year : Z.

Lemma collect_year_appends (cash_flows : list R) (years_data : list (Z * R))
      (i : Z) :
  collect_year get_cash_flow_data current_year (cash_flows, years_data) i
  = match year_contribution get_cash_flow_data current_year i with
    | Some pick => (cash_flows ++ [snd pick], years_data ++ [pick])
    | None => (cash_flows, years_data)
    end.
Proof.
  unfold collect_year, year_contribution. cbv zeta.
  destruct (get_cash_flow_data (current_year - i - 1)) as [cf_data |];
    [| reflexivity].
  destruct (negb (Pd.empty cf_data)); [| reflexivity].
  destruct (probe_cash_flow cf_fields cf_data) as [[v |] | e]; reflexivity.
Qed.

Lemma collect_rounds (rounds : list Z) (cash_flows : list R)
      (years_data : list (Z * R)) :
  fold_left (collect_year get_cash_flow_data current_year) rounds
            (cash_flows, years_data)
  = (cash_flows
       ++ map snd (contributions get_cash_flow_data current_year rounds),
     years_data ++ contributions get_cash_flow_data current_year rounds).
Proof.
  revert cash_flows years_data.
  induction rounds as [| i rounds IH]; intros cash_flows years_data.
  - simpl. now rewrite !app_nil_r.
  - cbn [fold_left]. rewrite collect_year_appends.
    unfold contributions. cbn [flat_map]. fold (contributions
      get_cash_flow_data current_year rounds).
    destruct (year_contribution get_cash_flow_data current_year i)
      as [pick |]; rewrite IH; [| reflexivity].
    cbn [app map]. now rewrite <- !app_assoc.
Qed.

Lemma year_contribution_spec (i y : Z) (v : R) :
  year_contribution get_cash_flow_data current_year i = Some (y, v)
  <-> y = (current_year - i - 1)%Z
      /\ exists cf_data,
          get_cash_flow_data y = Some cf_data
          /\ Pd.empty cf_data = false
          /\ probe_cash_flow cf_fields cf_data = Return (Some v).
Proof.
  unfold year_contribution. cbv zeta. split.
  - destruct (get_cash_flow_data (current_year - i - 1)) as [cf_data |] eqn:Hg;
      [| discriminate].
    destruct (Pd.empty cf_data) eqn:He; cbn [negb]; [discriminate |].
    destruct (probe_cash_flow cf_fields cf_data) as [[x |] | e] eqn:Hp;
      try discriminate.
    intros H. injection H as <- <-.
    split; [reflexivity |]. exists cf_data. auto.
  - intros (-> & cf_data & Hg & He & Hp).
    now rewrite Hg, He, Hp.
Qed.

Lemma contributions_In (rounds : list Z) (y : Z) (v : R) :
  In (y, v) (contributions get_cash_flow_data current_year rounds)
  <-> exists i, In i rounds
                /\ year_contribution get_cash_flow_data current_year i
                   = Some (y, v).
Proof.
  unfold contributions. rewrite in_flat_map. split.
  - intros (i & Hi & Hin). exists i. split; [exact Hi |].
    destruct (year_contribution get_cash_flow_data current_year i)
      as [pick |]; [| destruct Hin].
    destruct Hin as [<- | []]. reflexivity.
  - intros (i & Hi & Hc). exists i. split; [exact Hi |].
    rewrite Hc. now left.
Qed.

Lemma contributions_length (rounds : list Z) :
  (length (contributions get_cash_flow_data current_year rounds)
   <= length rounds)%nat.
Proof.
  induction rounds as [| i rounds IH]; simpl; [lia |].
  rewrite length_app.
  destruct (year_contribution get_cash_flow_data current_year i);
    simpl; lia.
Qed.

Lemma contributions_descending (rounds : list Z) :
  StronglySorted Z.lt rounds ->
  StronglySorted (fun y y' => (y' < y)%Z)
    (map fst (contributions get_cash_flow_data current_year rounds)).
Proof.
  induction 1 as [| i rounds Hs IH Hi]; simpl; [constructor |].
  destruct (year_contribution get_cash_flow_data current_year i)
    as [[y v] |] eqn:Hc; simpl; [| exact IH].
  constructor; [exact IH |].
  apply Forall_forall. intros y' Hy'.
  apply in_map_iff in Hy' as ([y'' v'] & <- & Hin). simpl.
  apply contributions_In in Hin as (j & Hj & Hcj).
  apply year_contribution_spec in Hc as (-> & _).
  apply year_contribution_spec in Hcj as (-> & _).
  rewrite Forall_forall in Hi. specialize (Hi j Hj). lia.
Qed.

Lemma dcf_tool_inversion (years_back : Z) (discount_rate terminal_growth_rate : R)
      (cash_flows : list R) (years_data : list (Z * R))
      (dcf_result : py dcf_dict) :
  dcf_tool_valuation get_cash_flow_data current_year years_back
                     discount_rate terminal_growth_rate
  = EngineCalled cash_flows years_data dcf_result ->
  let picks :=
    contributions get_cash_flow_data current_year (Py.range 0 years_back) in
  years_data = rev picks
  /\ cash_flows = map snd years_data
  /\ (2 <= length cash_flows)%nat
  /\ dcf_result = _calculate_dcf_value cash_flows terminal_growth_rate
                                       discount_rate 5.
Proof.
  unfold dcf_tool_valuation, collect_cash_flows.
  rewrite collect_rounds. simpl app.
  set (picks := contributions get_cash_flow_data current_year
                              (Py.range 0 years_back)).
  destruct (length (map snd picks) <? 2)%nat eqn:Hlen; [discriminate |].
  intros H. injection H as <- <- <-. cbv zeta.
  apply Nat.ltb_ge in Hlen.
  repeat split.
  - now rewrite map_rev.
  - now rewrite length_rev.
Qed.

End Collection.

(** X19. When the tool reaches the engine, the cash flows it passes are
    the values of [years_data] in the same order, the years are strictly
    ascending (oldest first), and a year with its value is listed exactly
    when it lies among the [years_back] years before the current one, its
    fetch succeeded with a non-empty frame and the probe found a number in
    it; at least 2 and at most [years_back] values are passed. *)
Theorem collected_years_chronological
        (get_cash_flow_data : Z -> option Pd.frame)
        (current_year years_back : Z) (discount_rate terminal_growth_rate : R)
        (cash_flows : list R) (years_data : list (Z * R))
        (dcf_result : py dcf_dict) :
  dcf_tool_valuation get_cash_flow_data current_year years_back
                     discount_rate terminal_growth_rate
  = EngineCalled cash_flows years_data dcf_result ->
  cash_flows = map snd years_data
  /\ StronglySorted Z.lt (map fst years_data)
  /\ (forall y v,
        In (y, v) years_data
        <-> (current_year - years_back <= y <= current_year - 1)%Z
            /\ exists cf_data,
                get_cash_flow_data y = Some cf_data
                /\ Pd.empty cf_data = false
                /\ probe_cash_flow cf_fields cf_data = Return (Some v))
  /\ (2 <= length cash_flows)%nat
  /\ (Z.of_nat (length cash_flows) <= years_back)%Z.
Proof.
  intros Htool.
  destruct (dcf_tool_inversion _ _ _ _ _ _ _ _ Htool)
    as (Hyd & Hcf & Htwo & _).
  destruct (range_from_0 years_back) as (Hsorted & Hrange & Hlen).
  split; [exact Hcf |]. split; [| split; [| split]].
  - rewrite Hyd, map_rev. apply sorted_rev.
    now apply contributions_descending.
  - intros y v. rewrite Hyd, <- in_rev, contributions_In. split.
    + intros (i & Hi & Hc). apply Hrange in Hi.
      apply year_contribution_spec in Hc as (-> & Hdata).
      split; [lia | exact Hdata].
    + intros (Hy & Hdata). exists (current_year - y - 1)%Z.
      split; [apply Hrange; lia |].
      apply year_contribution_spec. split; [lia | exact Hdata].
  - exact Htwo.
  - rewrite Hcf, length_map, Hyd, length_rev.
    pose proof (contributions_length get_cash_flow_data current_year
                                     (Py.range 0 years_back)) as Hle.
    rewrite Hlen in Hle.
    rewrite Hcf, length_map, Hyd, length_rev in Htwo. lia.
Qed.

Lemma sample_tool_step (discount_rate terminal_growth_rate : R) :
  dcf_tool_valuation sample_cash_flow_data 2024 5 discount_rate terminal_growth_rate
  = EngineCalled [80; 0; 120] [(2021%Z, 80); (2022%Z, 0); (2023%Z, 120)]
                 (_calculate_dcf_value [80; 0; 120] terminal_growth_rate
                                       discount_rate 5).
Proof. reflexivity. Qed.

Lemma collected_years_chronological_witness :
  StronglySorted Z.lt (map fst [(2021%Z, 80); (2022%Z, 0); (2023%Z, 120)])
  /\ (Z.of_nat (length [80; 0; 120]%R) <= 5)%Z.
Proof.
  destruct (collected_years_chronological
              sample_cash_flow_data 2024 5 0.10 0.025 _ _ _
              (sample_tool_step 0.10 0.025))
    as (_ & Hsorted & _ & _ & Hlen).
  split; assumption.
Defined.

Lemma engine_after_first_check (cash_flows : list R) (g r : R) :
  (2 <= length cash_flows)%nat ->
  let out := _calculate_dcf_value cash_flows g r 5 in
  out <> Return (ErrorDict "Insufficient cash flow data for DCF calculation")
  /\ out <> Raise IndexError
  /\ (out = Return (ErrorDict "Insufficient positive cash flow data")
      <-> (length (filter is_positive cash_flows) < 2)%nat).
Proof.
  intros Hlen out. subst out.
  destruct (Nat.lt_ge_cases (length (filter is_positive cash_flows)) 2)
    as [Hfew | Htwo].
  - rewrite dcf_few_positive by assumption.
    repeat split; try discriminate; auto.
  - rewrite dcf_enough by assumption.
    assert (Hend : forall out,
               discount_projection (filter is_positive cash_flows) g r 5
               = out ->
               out = Raise ZeroDivisionError
               \/ exists res, out = Return (ValuationDict res)).
    { intros out <-.
      destruct (Req_dec_T r g) as [Hg | Hg];
        [left; apply discount_equal_rates; [lia | assumption] |].
      destruct (Req_dec_T r (-1)) as [Hr | Hr];
        [left; apply discount_total_loss; [lia | assumption..] |].
      right. eexists. apply discount_returns; [lia | assumption..]. }
    destruct (Hend _ eq_refl) as [-> | [res ->]];
      repeat split; try discriminate; intros; try lia.
Qed.

(** X20. When the tool reaches the engine, the engine's own check of the
    input length never fires and the default horizon of 5 years rules out
    the IndexError of an empty projection: the engine returns the error
    dictionary "Insufficient positive cash flow data" exactly when fewer
    than 2 of the collected cash flows are strictly positive, and
    otherwise goes on to the arithmetic. *)
Theorem tool_call_skips_length_check
        (get_cash_flow_data : Z -> option Pd.frame)
        (current_year years_back : Z) (discount_rate terminal_growth_rate : R)
        (cash_flows : list R) (years_data : list (Z * R))
        (dcf_result : py dcf_dict) :
  dcf_tool_valuation get_cash_flow_data current_year years_back
                     discount_rate terminal_growth_rate
  = EngineCalled cash_flows years_data dcf_result ->
  dcf_result
  <> Return (ErrorDict "Insufficient cash flow data for DCF calculation")
  /\ dcf_result <> Raise IndexError
  /\ (dcf_result = Return (ErrorDict "Insufficient positive cash flow data")
      <-> (length (filter is_positive cash_flows) < 2)%nat).
Proof.
  intros Htool.
  destruct (dcf_tool_inversion _ _ _ _ _ _ _ _ Htool)
    as (_ & _ & Htwo & ->).
  now apply engine_after_first_check.
Qed.

Lemma tool_call_skips_length_check_witness :
  _calculate_dcf_value [80; 0; 120] 0.025 0.10 5 <> Raise IndexError.
Proof.
  exact (proj1 (proj2 (tool_call_skips_length_check
                         sample_cash_flow_data 2024 5 0.10 0.025 _ _ _
                         (sample_tool_step 0.10 0.025)))).
Defined.
